(** * s3_bucket_summary.py: scanner and reporter, embedded and verified

    The development follows the layout of the Python module:

    - [Py]          exceptions, the error monad, insertion-ordered dictionaries;
    - [PyFloat]     binary64 arithmetic as CPython performs it (int true
                    division, int-by-float product, truncation, [,.1f]);
    - [Scanner]     [get_aws_session] and [get_s3_summary] over a scripted
                    storage service;
    - [Reporter]    [write_summary_to_csv], [format_size],
                    [print_console_summary] and the [__main__] block;
    - [Progress]    [format_duration].

    Floats are the Standard Library's [spec_float] with [prec = 53] and
    [emax = 1024]; nothing is approximated by integer division. *)

From Stdlib Require Import ZArith List String Ascii Bool Lia.
From Stdlib Require Import SpecFloat DecimalString Sorted.
Import ListNotations.

Local Open Scope string_scope.
Local Open Scope Z_scope.

(* ================================================================= *)
(** ** Python runtime: exceptions, results, dictionaries *)

Module Py.

(** The exception classes the module can meet. [KeyboardInterrupt] derives
    from [BaseException] only; every other one derives from [Exception]. *)
Inductive exn : Type :=
| TimeoutException
| ClientError
| NoCredentialsError
| PartialCredentialsError
| ProfileNotFound
| AttributeError
| UnboundLocalError
| OverflowError
| ValueError
| KeyError
| ZeroDivisionError
| KeyboardInterrupt
| OtherException (msg : string).

Definition is_Exception (e : exn) : bool :=
  match e with
  | KeyboardInterrupt => false
  | _ => true
  end.

Definition is_TimeoutException (e : exn) : bool :=
  match e with
  | TimeoutException => true
  | _ => false
  end.

Definition is_ClientError (e : exn) : bool :=
  match e with
  | ClientError => true
  | _ => false
  end.

(** A computation either returns or raises. *)
Inductive result (A : Type) : Type :=
| Ok (a : A)
| Raise (e : exn).

Arguments Ok {A} a.
Arguments Raise {A} e.

Definition bind {A B : Type} (r : result A) (k : A -> result B) : result B :=
  match r with
  | Ok a => k a
  | Raise e => Raise e
  end.

(** Insertion-ordered dictionary with string keys, as [dict] has been since
    Python 3.7: an update keeps the key's position, a new key goes last. *)
Definition dict (V : Type) : Type := list (string * V).

Fixpoint get {V : Type} (d : dict V) (k : string) : option V :=
  match d with
  | [] => None
  | (k', v) :: d' => if String.eqb k' k then Some v else get d' k
  end.

Fixpoint set {V : Type} (d : dict V) (k : string) (v : V) : dict V :=
  match d with
  | [] => [(k, v)]
  | (k', v') :: d' =>
      if String.eqb k' k then (k', v) :: d' else (k', v') :: set d' k v
  end.

Definition keys {V : Type} (d : dict V) : list string := map fst d.
Definition values {V : Type} (d : dict V) : list V := map snd d.

(** [d[k]] on a plain dict. *)
Definition getitem {V : Type} (d : dict V) (k : string) : result V :=
  match get d k with
  | Some v => Ok v
  | None => Raise KeyError
  end.

(** [d[k] += n] on a [defaultdict(int)]. *)
Definition iadd (d : dict Z) (k : string) (n : Z) : dict Z :=
  match get d k with
  | Some v => set d k (v + n)
  | None => set d k (0 + n)
  end.

(** [d[k]] on a [defaultdict(int)] whose key is read only. *)
Definition getitem_default (d : dict Z) (k : string) : Z :=
  match get d k with
  | Some v => v
  | None => 0
  end.

(** [sum(xs)] on integers. *)
Definition sum (xs : list Z) : Z := fold_left Z.add xs 0.
#[global] Arguments sum : simpl never.

(** [sorted(xs)] on strings: insertion sort on the code-point order, which
    [String.leb] decides bytewise. *)
Fixpoint insert_sorted (x : string) (xs : list string) : list string :=
  match xs with
  | [] => [x]
  | y :: ys => if String.leb x y then x :: xs else y :: insert_sorted x ys
  end.

Definition sorted (xs : list string) : list string :=
  fold_right insert_sorted [] xs.

(** The newline character of ["\n"]. *)
Definition nl : string := String (ascii_of_nat 10) EmptyString.

(** Decimal digits of a natural number, as [str(n)] prints them. *)
Definition digits (n : N) : string := NilZero.string_of_uint (N.to_uint n).

(** Thousands separators of the [,] format option: a comma before every
    group of three digits counted from the right. *)
Fixpoint group3 (rev_digits : list ascii) (pos : nat) : list ascii :=
  match rev_digits with
  | [] => []
  | c :: rest =>
      match pos with
      | 3%nat => "," %char :: c :: group3 rest 1
      | _ => c :: group3 rest (S pos)
      end
  end.

Definition with_commas (ds : string) : string :=
  string_of_list_ascii
    (rev (group3 (rev (list_ascii_of_string ds)) 0)).

(** [f"{n:,}"] for an integer [n]. *)
Definition format_int (n : Z) : string :=
  (if n <? 0 then "-" else "") ++ with_commas (digits (Z.abs_N n)).

(** [str(n)] for an integer [n]. *)
Definition str_int (n : Z) : string :=
  (if n <? 0 then "-" else "") ++ digits (Z.abs_N n).

End Py.

Declare Scope py_scope.
Delimit Scope py_scope with py.
Notation "x <- c1 ;; c2" := (Py.bind c1 (fun x => c2))
  (at level 61, c1 at next level, right associativity) : py_scope.
Notation "' pat <- c1 ;; c2" := (Py.bind c1 (fun x => match x with pat => c2 end))
  (at level 61, pat pattern, c1 at next level, right associativity) : py_scope.
Local Open Scope py_scope.

(* ================================================================= *)
(** ** Binary64 arithmetic as CPython performs it *)

Module PyFloat.
Import Py.

Definition prec : Z := 53.
Definition emax : Z := 1024.

Definition float : Type := spec_float.

(** [float(n)] for an int [n] ([PyLong_AsDouble]): round to nearest even,
    [OverflowError] when the int is too large. *)
Definition of_int (n : Z) : result float :=
  match binary_normalize prec emax n 0 false with
  | S754_infinity _ => Raise OverflowError
  | f => Ok f
  end.

(** An int read as an unrounded mantissa with exponent 0. *)
Definition raw (n : Z) : float :=
  match n with
  | Z0 => S754_zero false
  | Zpos p => S754_finite false p 0
  | Zneg p => S754_finite true p 0
  end.

(** [a / b] on two ints ([long_true_divide]): the correctly rounded
    quotient, whatever the size of the operands. *)
Definition int_truediv (a b : Z) : result float :=
  if b =? 0 then Raise ZeroDivisionError
  else if a =? 0 then Ok (S754_zero (b <? 0))
  else
    match SFdiv prec emax (raw a) (raw b) with
    | S754_infinity _ => Raise OverflowError
    | f => Ok f
    end.

(** [x * y] and [x / y] on two floats; a zero divisor raises. *)
Definition mul (x y : float) : float := SFmul prec emax x y.

Definition truediv (x y : float) : result float :=
  match y with
  | S754_zero _ => Raise ZeroDivisionError
  | _ => Ok (SFdiv prec emax x y)
  end.

(** [n * y] for an int [n] and a float [y]: the int is converted first. *)
Definition int_mul (n : Z) (y : float) : result float :=
  x <- of_int n ;; Ok (mul x y).

(** [int(x)]: truncation toward zero. *)
Definition to_int (x : float) : result Z :=
  match x with
  | S754_zero _ => Ok 0
  | S754_infinity _ => Raise OverflowError
  | S754_nan => Raise ValueError
  | S754_finite s m e =>
      let a := match e with
               | Zneg k => Z.shiftr (Zpos m) (Zpos k)
               | _ => Z.shiftl (Zpos m) e
               end in
      Ok (if s then - a else a)
  end.

Definition lt (x y : float) : bool := SFltb x y.

(** The literal [1024.0]. *)
Definition f1024 : float := S754_finite false 4503599627370496 (-42).

(** [f"{x:,.1f}"]: the exact binary value rounded half-even to one decimal,
    the integer part with thousands separators. *)
Definition tenths (m : positive) (e : Z) : Z :=
  match e with
  | Zneg k =>
      let den := Z.shiftl 1 (Zpos k) in
      let num := 10 * Zpos m in
      let q := num / den in
      let r := num mod den in
      match 2 * r ?= den with
      | Lt => q
      | Gt => q + 1
      | Eq => if Z.even q then q else q + 1
      end
  | _ => 10 * Z.shiftl (Zpos m) e
  end.

Definition format_1f (x : float) : string :=
  match x with
  | S754_zero s => (if s then "-" else "") ++ "0.0"
  | S754_infinity s => (if s then "-" else "") ++ "inf"
  | S754_nan => "nan"
  | S754_finite s m e =>
      let t := tenths m e in
      (if s then "-" else "")
        ++ with_commas (digits (Z.to_N (t / 10)))
        ++ "." ++ digits (Z.to_N (t mod 10))
  end.

End PyFloat.

(* ================================================================= *)
(** ** The scanner: [get_aws_session] and [get_s3_summary] *)

Module Scanner.
Import Py.

(** *** The storage service, as a script

    The remote service is outside the program; a run is determined by what
    each call answers.  A listing is the sequence of things the page
    iterator does when advanced: hand out a page, or raise.  The alarm
    armed by [signal.alarm] interrupts the call the program is waiting on,
    so a deadline appears in the script as [TimeoutException] raised by
    that call. *)

(** One entry of [page['Contents']]: [obj['Size']] and
    [obj.get('StorageClass')]. *)
Record s3_object : Type := {
  Size : Z;
  StorageClass : option string
}.

Inductive page_event : Type :=
| Page (Contents : option (list s3_object))
| PageRaises (e : exn).

Record s3_bucket : Type := {
  Name : string;
  listing : list page_event
}.

(** What building the session and calling [sts.get_caller_identity()]
    does: answer an identity (with or without an ['Account'] key) or
    raise. *)
Inductive sts_outcome : Type :=
| Identity (Account : option string)
| StsRaises (e : exn).

Record service : Type := {
  sts : sts_outcome;
  list_buckets : result (list s3_bucket)
}.

(** *** [get_aws_session] *)

(** The two shapes of value the function returns: a session carrying
    [account_id], or the tuple [(None, None)]. *)
Inductive session_value : Type :=
| Session (account_id : string)
| NoneNone.

Definition get_aws_session (o : sts_outcome) : result session_value :=
  match o with
  | Identity (Some a) => Ok (Session a)
  | Identity None => Ok (Session "N/A")
  | StsRaises NoCredentialsError
  | StsRaises PartialCredentialsError
  | StsRaises ProfileNotFound => Ok NoneNone
  | StsRaises ClientError => Ok NoneNone
  | StsRaises e => Raise e
  end.

(** [bool(session)]: a session object is truthy, and so is a tuple of
    length two. *)
Definition truthy_session (s : session_value) : bool :=
  match s with
  | Session _ => true
  | NoneNone => true
  end.

(** [getattr(session, 'account_id', 'N/A')]. *)
Definition getattr_account_id (s : session_value) : string :=
  match s with
  | Session a => a
  | NoneNone => "N/A"
  end.

(** [session.client('s3')]: a tuple has no such attribute. *)
Definition client (s : session_value) : result unit :=
  match s with
  | Session _ => Ok tt
  | NoneNone => Raise AttributeError
  end.

(** *** One bucket *)

(** The entries appended to [summary]; the fields are the dict keys
    ['Bucket Name'], ['Object Count'], ['Total Size (Bytes)'] and
    ['Storage Classes']. *)
Record bucket_summary : Type := {
  Bucket_Name : string;
  Object_Count : Z;
  Total_Size_Bytes : Z;
  Storage_Classes : dict Z
}.

(** The per-bucket counters. *)
Record counters : Type := {
  object_count : Z;
  total_size : Z;
  storage_classes : dict Z
}.

Definition counters0 : counters :=
  {| object_count := 0; total_size := 0; storage_classes := [] |}.

Definition storage_class_of (obj : s3_object) : string :=
  match StorageClass obj with
  | Some c => c
  | None => "STANDARD"
  end.

(** Body of [for obj in page['Contents']]. *)
Definition count_object (c : counters) (obj : s3_object) : counters :=
  {| object_count := object_count c + 1;
     total_size := total_size c + Size obj;
     storage_classes := iadd (storage_classes c) (storage_class_of obj) 1 |}.

(** Body of [for page in page_iterator]. *)
Definition count_page (c : counters) (Contents : option (list s3_object))
  : counters :=
  match Contents with
  | Some objs => fold_left count_object objs c
  | None => c
  end.

(** The page loop: the counters when it stops, and the exception that
    stopped it, if any. *)
Fixpoint paginate (events : list page_event) (c : counters)
  : counters * option exn :=
  match events with
  | [] => (c, None)
  | Page Contents :: rest => paginate rest (count_page c Contents)
  | PageRaises e :: _ => (c, Some e)
  end.

Definition entry_of (bucket : s3_bucket) (c : counters) : bucket_summary :=
  {| Bucket_Name := Name bucket;
     Object_Count := object_count c;
     Total_Size_Bytes := total_size c;
     Storage_Classes := storage_classes c |}.

(** *** The bucket loop

    [for i, bucket in enumerate(buckets, 1)], with [summary] and
    [processed_buckets] threaded through.  A [ClientError] from the page
    loop is caught inside the iteration; anything else leaves the loop. *)
Fixpoint scan_buckets (buckets : list s3_bucket)
    (summary : list bucket_summary) (processed_buckets : Z)
  : list bucket_summary * Z * option exn :=
  match buckets with
  | [] => (summary, processed_buckets, None)
  | bucket :: rest =>
      let '(c, raised) := paginate (listing bucket) counters0 in
      match raised with
      | Some e =>
          if is_ClientError e then
            if object_count c =? 0 then
              scan_buckets rest summary processed_buckets
            else
              scan_buckets rest (summary ++ [entry_of bucket c])
                (processed_buckets + 1)
          else (summary, processed_buckets, Some e)
      | None =>
          scan_buckets rest (summary ++ [entry_of bucket c])
            (processed_buckets + 1)
      end
  end.

(** *** [get_s3_summary] *)

(** The locals the handlers and the code after the [try] read; [None] is a
    name not bound yet. *)
Record locals : Type := {
  processed_buckets : Z;
  total_buckets : option Z;
  account_id : option string;
  summary : option (list bucket_summary)
}.

(** How the [try] block ends. *)
Inductive completion : Type :=
| Falls_through
| Returns (v : list bucket_summary * option string)
| Raises (e : exn).

Definition try_block (w : service) : locals * completion :=
  let l0 := {| processed_buckets := 0; total_buckets := None;
               account_id := None; summary := None |} in
  match get_aws_session (sts w) with
  | Raise e => (l0, Raises e)
  | Ok session =>
      if negb (truthy_session session) then (l0, Returns ([], None))
      else
        let l1 := {| processed_buckets := 0; total_buckets := None;
                     account_id := Some (getattr_account_id session);
                     summary := None |} in
        match client session with
        | Raise e => (l1, Raises e)
        | Ok _ =>
            match list_buckets w with
            | Raise e => (l1, Raises e)
            | Ok buckets =>
                let '(s, p, raised) := scan_buckets buckets [] 0 in
                ({| processed_buckets := p;
                    total_buckets := Some (Z.of_nat (List.length buckets));
                    account_id := account_id l1;
                    summary := Some s |},
                 match raised with
                 | Some e => Raises e
                 | None => Falls_through
                 end)
            end
        end
  end.

(** The code after the [try] statement. *)
Definition after_try (l : locals) : result (list bucket_summary * option string) :=
  match summary l with
  | None => Raise UnboundLocalError
  | Some [] => Ok ([], None)
  | Some s => Ok (s, account_id l)
  end.

(** The whole function: the [try] block, then the handler that matches.
    The [TimeoutException] handler formats [total_buckets] into its
    warning before it tests [processed_buckets]. *)
Definition get_s3_summary (w : service)
  : result (list bucket_summary * option string) :=
  let '(l, c) := try_block w in
  match c with
  | Falls_through => after_try l
  | Returns v => Ok v
  | Raises e =>
      if is_TimeoutException e then
        match total_buckets l with
        | None => Raise UnboundLocalError
        | Some _ =>
            if processed_buckets l =? 0 then Ok ([], None) else after_try l
        end
      else if is_Exception e then
        if processed_buckets l =? 0 then Ok ([], None) else after_try l
      else Raise e
  end.

End Scanner.

(* ================================================================= *)
(** ** The reporter: CSV report, console summary, [__main__] *)

Module Reporter.
Import Py.
Import Scanner.

(** *** The proportional split *)

(** [int(bucket_size * proportion)] with
    [proportion = count / bucket_objects]: an int true division, an
    int-by-float product, a truncation. *)
Definition proportional_size (bucket_size count bucket_objects : Z)
  : result Z :=
  proportion <- PyFloat.int_truediv count bucket_objects ;;
  x <- PyFloat.int_mul bucket_size proportion ;;
  PyFloat.to_int x.

(** [for sc, count in storage_classes.items()]. *)
Fixpoint distribute (items : list (string * Z))
    (bucket_size bucket_objects : Z)
    (storage_class_objects storage_class_sizes : dict Z)
  : result (dict Z * dict Z) :=
  match items with
  | [] => Ok (storage_class_objects, storage_class_sizes)
  | (sc, count) :: rest =>
      let storage_class_objects := iadd storage_class_objects sc count in
      size <- proportional_size bucket_size count bucket_objects ;;
      distribute rest bucket_size bucket_objects
        storage_class_objects (iadd storage_class_sizes sc size)
  end.

(** [bool(d)] for a dict. *)
Definition truthy_dict {V : Type} (d : dict V) : bool :=
  match d with
  | [] => false
  | _ => true
  end.

(** Body of the first pass, for one entry. *)
Definition collect_entry (entry : bucket_summary)
    (storage_class_objects storage_class_sizes : dict Z)
  : result (dict Z * dict Z) :=
  let bucket_size := Total_Size_Bytes entry in
  let bucket_objects := Object_Count entry in
  let storage_classes := Storage_Classes entry in
  if truthy_dict storage_classes && (bucket_objects >? 0) then
    distribute storage_classes bucket_size bucket_objects
      storage_class_objects storage_class_sizes
  else
    Ok (iadd storage_class_objects "STANDARD" bucket_objects,
        iadd storage_class_sizes "STANDARD" bucket_size).

(** The first pass: [for entry in summary]. *)
Fixpoint collect (summary : list bucket_summary)
    (storage_class_objects storage_class_sizes : dict Z)
  : result (dict Z * dict Z) :=
  match summary with
  | [] => Ok (storage_class_objects, storage_class_sizes)
  | entry :: rest =>
      '(o, s) <- collect_entry entry storage_class_objects storage_class_sizes ;;
      collect rest o s
  end.

(** *** [write_summary_to_csv] *)

(** A value handed to [writer.writerow]: a string, an int, or the float
    [round(x, 2)], kept as its argument [x]. *)
Inductive cell : Type :=
| Text (s : string)
| Number (n : Z)
| Rounded2 (x : PyFloat.float).

Definition row : Type := list cell.

(** The dict the function returns. *)
Record stats : Type := {
  total_buckets : Z;
  total_objects : Z;
  total_size : Z;
  storage_class_objects : dict Z;
  storage_class_sizes : dict Z
}.

(** ['; '.join(parts)]. *)
Fixpoint join (sep : string) (parts : list string) : string :=
  match parts with
  | [] => ""
  | [p] => p
  | p :: rest => p ++ sep ++ join sep rest
  end.

Definition bucket_row (entry : bucket_summary) : row :=
  [ Text (Bucket_Name entry);
    Number (Object_Count entry);
    Number (Total_Size_Bytes entry);
    Text (join "; "
            (map (fun kv => fst kv ++ ": " ++ str_int (snd kv))
                 (Storage_Classes entry))) ].

(** The second pass: one row per entry, and the two running totals. *)
Fixpoint write_buckets (summary : list bucket_summary)
    (total_objects total_size : Z) : list row * Z * Z :=
  match summary with
  | [] => ([], total_objects, total_size)
  | entry :: rest =>
      let '(rows, o, s) :=
        write_buckets rest (total_objects + Object_Count entry)
                      (total_size + Total_Size_Bytes entry) in
      (bucket_row entry :: rows, o, s)
  end.

Definition GiB : Z := 1024 ^ 3.

(** [for sc in sorted(storage_class_objects.keys())]: three rows a class. *)
Fixpoint write_distribution (classes : list string)
    (storage_class_objects storage_class_sizes : dict Z)
  : result (list row) :=
  match classes with
  | [] => Ok []
  | sc :: rest =>
      count <- getitem storage_class_objects sc ;;
      let size_bytes := getitem_default storage_class_sizes sc in
      size_gb <- PyFloat.int_truediv size_bytes GiB ;;
      rows <- write_distribution rest storage_class_objects
                storage_class_sizes ;;
      Ok ([Text ("  " ++ sc ++ " Objects"); Number count]
            :: [Text ("  " ++ sc ++ " Size (Bytes)"); Number size_bytes]
            :: [Text ("  " ++ sc ++ " Size (GB)"); Rounded2 size_gb]
            :: rows)
  end.

(** [bool(s)] for an optional string: [None] and [""] are falsy. *)
Definition truthy_str (s : option string) : bool :=
  match s with
  | None => false
  | Some "" => false
  | Some _ => true
  end.

Definition str_of (s : option string) : string :=
  match s with
  | Some a => a
  | None => "None"
  end.

(** The rows written to the file, in order, and the returned dict.  [now]
    is the formatted timestamp of the header.  The statements after the
    [return] are never run. *)
Definition write_summary_to_csv (now : string)
    (summary : list bucket_summary) (account_id : option string)
  : result (list row * stats) :=
  let header : list row :=
    ([ [Text "S3 Bucket Summary Report"];
       [Text "Generated at:"; Text now] ]
     ++ (if truthy_str account_id
         then [[Text "AWS Account:"; Text (str_of account_id)]] else [])
     ++ [ [Text ""];
          [Text "Detailed Bucket Information"];
          [Text "Bucket Name"; Text "Object Count";
           Text "Total Size (Bytes)"; Text "Storage Classes"] ])%list in
  '(objects, sizes) <- collect summary [] [] ;;
  let '(bucket_rows, total_objects, total_size) :=
    write_buckets summary 0 0 in
  total_gb <- PyFloat.int_truediv total_size GiB ;;
  let totals : list row :=
    [ [Text ""];
      [Text "Summary"];
      [Text "Total Buckets"; Number (Z.of_nat (List.length summary))];
      [Text "Total Objects"; Number total_objects];
      [Text "Total Size (Bytes)"; Number total_size];
      [Text "Total Size (GB)"; Rounded2 total_gb];
      [Text ""];
      [Text "Storage Class Distribution"] ] in
  distribution <- write_distribution (sorted (keys objects)) objects sizes ;;
  Ok ((header ++ bucket_rows ++ totals ++ distribution)%list,
      {| total_buckets := Z.of_nat (List.length summary);
         total_objects := total_objects;
         total_size := total_size;
         storage_class_objects := objects;
         storage_class_sizes := sizes |}).

(** *** [format_size] *)

(** [size_bytes] starts as an int and becomes a float at the first
    division. *)
Inductive number : Type :=
| Int (n : Z)
| Float (x : PyFloat.float).

(** [size_bytes < 1024.0]; an int is compared exactly. *)
Definition lt_1024 (size_bytes : number) : bool :=
  match size_bytes with
  | Int n => n <? 1024
  | Float x => PyFloat.lt x PyFloat.f1024
  end.

(** [size_bytes /= 1024.0]. *)
Definition div_1024 (size_bytes : number) : result PyFloat.float :=
  match size_bytes with
  | Int n => x <- PyFloat.of_int n ;; PyFloat.truediv x PyFloat.f1024
  | Float x => PyFloat.truediv x PyFloat.f1024
  end.

(** [int(size_bytes)]. *)
Definition int_of (size_bytes : number) : result Z :=
  match size_bytes with
  | Int n => Ok n
  | Float x => PyFloat.to_int x
  end.

(** [f"{size_bytes:,.1f}"]. *)
Definition format_1f_of (size_bytes : number) : result string :=
  match size_bytes with
  | Int n => x <- PyFloat.of_int n ;; Ok (PyFloat.format_1f x)
  | Float x => Ok (PyFloat.format_1f x)
  end.

(** [for unit in units: ...], then the statement after the loop. *)
Fixpoint format_size_loop (units : list string) (size_bytes : number)
  : result string :=
  match units with
  | [] => s <- format_1f_of size_bytes ;; Ok (s ++ " PB")
  | unit :: rest =>
      if lt_1024 size_bytes || String.eqb unit "TB" then
        if String.eqb unit "B" then
          n <- int_of size_bytes ;; Ok (format_int n ++ " " ++ unit)
        else
          s <- format_1f_of size_bytes ;; Ok (s ++ " " ++ unit)
      else
        x <- div_1024 size_bytes ;; format_size_loop rest (Float x)
  end.

Definition units : list string := ["B"; "KB"; "MB"; "GB"; "TB"].

Definition format_size (size_bytes : Z) : result string :=
  format_size_loop units (Int size_bytes).

(** *** [print_console_summary] *)

(** [max(summary, key=lambda x: x['Object Count'])]: the running maximum
    is replaced only by a strictly greater key. *)
Fixpoint max_from (best : bucket_summary) (rest : list bucket_summary)
  : bucket_summary :=
  match rest with
  | [] => best
  | x :: rest' =>
      if Object_Count x >? Object_Count best
      then max_from x rest' else max_from best rest'
  end.

Definition max_by_object_count (summary : list bucket_summary)
  : result bucket_summary :=
  match summary with
  | [] => Raise ValueError
  | x :: rest => Ok (max_from x rest)
  end.

(** The [else] branch of [if csv_stats]: the totals recomputed from
    [summary]. *)
Definition fallback_stats (summary : list bucket_summary) : result stats :=
  let total_buckets := Z.of_nat (List.length summary) in
  let total_objects := sum (map Object_Count summary) in
  let total_size := sum (map Total_Size_Bytes summary) in
  '(objects, sizes) <- collect summary [] [] ;;
  Ok {| total_buckets := total_buckets;
        total_objects := total_objects;
        total_size := total_size;
        storage_class_objects := objects;
        storage_class_sizes := sizes |}.

(** [for sc in sorted(storage_class_objects.keys())]: one line a class.
    [plain] tells whether [storage_class_sizes] is the plain dict of
    [csv_stats] or the [defaultdict] of the fallback. *)
Fixpoint distribution_lines (plain : bool) (classes : list string)
    (storage_class_objects storage_class_sizes : dict Z)
  : result (list string) :=
  match classes with
  | [] => Ok []
  | sc :: rest =>
      count <- getitem storage_class_objects sc ;;
      size <- (if plain then getitem storage_class_sizes sc
               else Ok (getitem_default storage_class_sizes sc)) ;;
      shown <- format_size size ;;
      lines <- distribution_lines plain rest storage_class_objects
                 storage_class_sizes ;;
      Ok (("  " ++ sc ++ ": " ++ format_int count ++ " objects ("
             ++ shown ++ ")") :: lines)
  end.

(** The strings handed to [print], in order. *)
Definition print_console_summary (summary : list bucket_summary)
    (account_id : option string) (csv_stats : option stats)
  : result (list string) :=
  match summary, csv_stats with
  | [], None => Ok ["No S3 buckets found or accessible."]
  | _, _ =>
      '(plain, st) <-
        match csv_stats with
        | Some st => Ok (true, st)
        | None => st <- fallback_stats summary ;; Ok (false, st)
        end ;;
      largest_bucket <-
        match summary with
        | [] => Ok None
        | _ => b <- max_by_object_count summary ;; Ok (Some b)
        end ;;
      let account : list string :=
        if truthy_str account_id
        then [nl ++ "AWS Account: " ++ str_of account_id] else [] in
      shown_total <- format_size (total_size st) ;;
      lines <- distribution_lines plain
                 (sorted (keys (storage_class_objects st)))
                 (storage_class_objects st) (storage_class_sizes st) ;;
      largest <-
        match largest_bucket with
        | None => Ok []
        | Some b =>
            shown <- format_size (Total_Size_Bytes b) ;;
            Ok [ nl ++ "Largest Bucket: " ++ Bucket_Name b;
                 "  Objects: " ++ format_int (Object_Count b);
                 "  Size: " ++ shown ]
        end ;;
      let totals : list string :=
        [ nl ++ "=== S3 Storage Summary ===";
          "Total Buckets: " ++ format_int (total_buckets st);
          "Total Objects: " ++ format_int (total_objects st);
          "Total Size: " ++ shown_total;
          nl ++ "Storage Class Distribution:" ] in
      Ok (account ++ totals ++ lines ++ largest
            ++ ["========================="])%list
  end.

(** *** The [__main__] block *)

(** What a run leaves behind: the process exit code, the rows of the
    report when [write_summary_to_csv] returned, and the strings printed
    by the block and by [print_console_summary] (the scanner's progress
    lines and the messages sent to [stderr] are not recorded, nor are
    the lines [print_console_summary] had printed when it raises). *)
Record run : Type := {
  exit_code : Z;
  report : option (list row);
  console : list string
}.

(** The two handlers of the block: [KeyboardInterrupt] exits with 130,
    any [Exception] with 1. *)
Definition handle (e : exn) (file : option (list row))
    (printed : list string) : run :=
  if is_Exception e then
    {| exit_code := 1; report := file; console := printed |}
  else
    {| exit_code := 130; report := file;
       console := app printed [nl ++ "Operation cancelled by user."] |}.

(** The body of the block once [get_s3_summary] has returned the pair
    [(summary, account_id)]; [summary] is [None] or a list. *)
Definition report_on (now : string)
    (summary : option (list bucket_summary)) (account_id : option string)
  : run :=
  let printed := ["Starting S3 bucket summary..."] in
  match summary with
  | Some summary =>
      let printed := (printed ++ ["Writing summary to CSV..."])%list in
      match write_summary_to_csv now summary account_id with
      | Raise e => handle e None printed
      | Ok (file, csv_stats) =>
          let printed := app printed [nl ++ "=== Summary ==="] in
          match print_console_summary summary account_id (Some csv_stats) with
          | Raise e => handle e (Some file) printed
          | Ok lines =>
              {| exit_code := 0;
                 report := Some file;
                 console :=
                   app printed
                     (app lines
                        [nl ++ "Summary written to s3_bucket_summary.csv"]) |}
          end
      end
  | None =>
      {| exit_code := 1; report := None;
         console :=
           (printed ++ ["No summary data was returned. Check your AWS credentials and permissions."])%list |}
  end.

Definition main (now : string) (w : service) : run :=
  match get_s3_summary w with
  | Raise e => handle e None ["Starting S3 bucket summary..."]
  | Ok (summary, account_id) => report_on now (Some summary) account_id
  end.

End Reporter.

(* ================================================================= *)
(** ** Facts about the runtime structures *)

Module PyFacts.
Import Py.

Lemma fold_add_shift (xs : list Z) (a : Z) :
  fold_left Z.add xs a = a + sum xs.
Proof.
  unfold sum. revert a.
  induction xs as [|x xs IH]; intros a; simpl.
  - lia.
  - rewrite IH, (IH x). lia.
Qed.

Lemma sum_cons (x : Z) (xs : list Z) : sum (x :: xs) = x + sum xs.
Proof. unfold sum at 1. simpl. apply fold_add_shift. Qed.


Lemma sum_nonneg (xs : list Z) :
  Forall (fun v => 0 < v) xs -> 0 <= sum xs.
Proof.
  induction 1 as [|x xs Hx _ IH].
  - reflexivity.
  - rewrite sum_cons. lia.
Qed.

(** A sum of positive integers vanishes only on the empty list. *)
Lemma sum_positive_zero (xs : list Z) :
  Forall (fun v => 0 < v) xs -> sum xs = 0 -> xs = [].
Proof.
  intros H. destruct H as [|x xs Hx Hxs]; intros E.
  - reflexivity.
  - rewrite sum_cons in E. pose proof (sum_nonneg xs Hxs). lia.
Qed.

Section Dict.
Context {V : Type}.



Lemma get_None_keys (d : dict V) (k : string) :
  get d k = None <-> ~ In k (keys d).
Proof.
  induction d as [|[k' v'] d IH]; simpl.
  - tauto.
  - destruct (String.eqb k' k) eqn:E.
    + apply String.eqb_eq in E. split; [discriminate | tauto].
    + apply String.eqb_neq in E. rewrite IH. tauto.
Qed.

Lemma get_Some_keys (d : dict V) (k : string) (v : V) :
  get d k = Some v -> In k (keys d).
Proof.
  intros H. destruct (in_dec string_dec k (keys d)) as [Hin|Hout]; auto.
  apply get_None_keys in Hout. congruence.
Qed.

(** Writing a key that is present keeps the keys; a new key goes last. *)
Lemma keys_set (d : dict V) (k : string) (v : V) :
  keys (set d k v) =
  match get d k with
  | Some _ => keys d
  | None => (keys d ++ [k])%list
  end.
Proof.
  induction d as [|[k' v'] d IH]; simpl.
  - reflexivity.
  - destruct (String.eqb k' k) eqn:E; simpl.
    + reflexivity.
    + rewrite IH. now destruct (get d k).
Qed.

End Dict.

Lemma keys_iadd (d : dict Z) (k : string) (n : Z) :
  keys (iadd d k n) =
  match get d k with
  | Some _ => keys d
  | None => (keys d ++ [k])%list
  end.
Proof.
  unfold iadd. destruct (get d k) eqn:E; rewrite keys_set, E; reflexivity.
Qed.

(** Two dictionaries updated in lockstep keep the same keys. *)
Lemma keys_iadd_lockstep (d1 d2 : dict Z) (k : string) (n1 n2 : Z) :
  keys d1 = keys d2 -> keys (iadd d1 k n1) = keys (iadd d2 k n2).
Proof.
  intros H. rewrite !keys_iadd.
  destruct (get d1 k) eqn:E1, (get d2 k) eqn:E2; try congruence.
  - apply get_Some_keys in E1. apply get_None_keys in E2.
    rewrite H in E1. contradiction.
  - apply get_Some_keys in E2. apply get_None_keys in E1.
    rewrite H in E1. contradiction.
Qed.

Lemma values_set_sum (d : dict Z) (k : string) (v : Z) :
  sum (values (set d k v)) =
  sum (values d) + v - getitem_default d k.
Proof.
  unfold getitem_default.
  induction d as [|[k' v'] d IH]; simpl.
  - rewrite sum_cons. unfold sum. simpl. lia.
  - destruct (String.eqb k' k) eqn:E; simpl; rewrite !sum_cons.
    + lia.
    + fold (values (set d k v)). fold (values d). rewrite IH. lia.
Qed.

(** [d[k] += n] adds [n] to the sum of the values. *)
Lemma sum_values_iadd (d : dict Z) (k : string) (n : Z) :
  sum (values (iadd d k n)) = sum (values d) + n.
Proof.
  unfold iadd.
  destruct (get d k) eqn:E; rewrite values_set_sum;
    unfold getitem_default; rewrite E; lia.
Qed.

Lemma values_set_Forall (P : Z -> Prop) (d : dict Z) (k : string) (v : Z) :
  Forall P (values d) -> P v -> Forall P (values (set d k v)).
Proof.
  intros Hd Hv.
  induction d as [|[k' v'] d IH]; simpl.
  - repeat constructor. exact Hv.
  - simpl in Hd. inversion Hd as [|? ? Hv' Hd']; subst.
    destruct (String.eqb k' k); simpl; constructor; auto.
Qed.

Lemma get_Forall (P : Z -> Prop) (d : dict Z) (k : string) (v : Z) :
  Forall P (values d) -> get d k = Some v -> P v.
Proof.
  induction d as [|[k' v'] d IH]; simpl; intros Hd Hg.
  - discriminate.
  - inversion Hd; subst.
    destruct (String.eqb k' k); [now inversion Hg; subst | auto].
Qed.

(** Counting one more object keeps every counter positive. *)
Lemma values_iadd_positive (d : dict Z) (k : string) (n : Z) :
  Forall (fun v => 0 < v) (values d) -> 0 < n ->
  Forall (fun v => 0 < v) (values (iadd d k n)).
Proof.
  intros Hd Hn. unfold iadd.
  destruct (get d k) eqn:E; apply values_set_Forall; auto; try lia.
  pose proof (get_Forall _ _ _ _ Hd E) as Hz. simpl in Hz. lia.
Qed.

Lemma In_insert_sorted (x y : string) (xs : list string) :
  In y (insert_sorted x xs) <-> y = x \/ In y xs.
Proof.
  induction xs as [|z xs IH]; simpl.
  - intuition.
  - destruct (String.leb x z); simpl; [intuition|].
    rewrite IH. intuition.
Qed.

(** [sorted] returns the strings it was given. *)
Lemma In_sorted (y : string) (xs : list string) :
  In y (sorted xs) <-> In y xs.
Proof.
  induction xs as [|x xs IH]; simpl.
  - tauto.
  - rewrite In_insert_sorted, IH. intuition.
Qed.

End PyFacts.

(* ================================================================= *)
(** ** Properties of the scanner *)

Module ScannerFacts.
Import Py PyFacts Scanner.

(** *** Definitions used in the statements *)

(** The invariant of an appended entry: the histogram adds up to the
    object count, every class counts at least one object, and no object
    means no class. *)
Definition well_formed (r : bucket_summary) : Prop :=
  sum (values (Storage_Classes r)) = Object_Count r
  /\ Forall (fun v => 0 < v) (values (Storage_Classes r))
  /\ (Object_Count r = 0 -> Storage_Classes r = []).

(** The same invariant on the running counters. *)
Definition counted (c : counters) : Prop :=
  sum (values (storage_classes c)) = object_count c
  /\ Forall (fun v => 0 < v) (values (storage_classes c)).

(** A bucket whose page loop ends or is stopped by a [ClientError]: the
    bucket loop goes on after it. *)
Definition completes (b : s3_bucket) : bool :=
  match snd (paginate (listing b) counters0) with
  | None => true
  | Some e => is_ClientError e
  end.

(** What the scanner returns for a list of buckets taken alone. *)
Definition records_of (buckets : list s3_bucket) : list bucket_summary :=
  fst (fst (scan_buckets buckets [] 0)).

(** What one completing bucket adds to [summary]. *)
Definition kept (b : s3_bucket) : list bucket_summary :=
  let '(c, raised) := paginate (listing b) counters0 in
  match raised with
  | None => [entry_of b c]
  | Some _ => if object_count c =? 0 then [] else [entry_of b c]
  end.

(** The objects of a run of pages. *)
Definition objects_of (pages : list (option (list s3_object)))
  : list s3_object :=
  flat_map (fun Contents => match Contents with
                            | Some objs => objs
                            | None => []
                            end) pages.

(** [account_id] as [get_s3_summary] binds it from a session. *)
Definition account_of (Account : option string) : string :=
  match Account with
  | Some a => a
  | None => "N/A"
  end.

(** The value returned when the code after the [try] is reached with
    [summary] bound to [records]. *)
Definition returned (records : list bucket_summary) (account : string)
  : list bucket_summary * option string :=
  match records with
  | [] => ([], None)
  | e :: es => (e :: es, Some account)
  end.

(** *** The counters *)

Lemma counted0 : counted counters0.
Proof. split; [reflexivity | constructor]. Qed.

Lemma count_object_counted (c : counters) (obj : s3_object) :
  counted c -> counted (count_object c obj).
Proof.
  intros [Hs Hp]. split; simpl.
  - rewrite sum_values_iadd. lia.
  - apply values_iadd_positive; [exact Hp | lia].
Qed.

Lemma count_objects_counted (objs : list s3_object) (c : counters) :
  counted c -> counted (fold_left count_object objs c).
Proof.
  revert c. induction objs as [|o objs IH]; intros c Hc; simpl.
  - exact Hc.
  - apply IH, count_object_counted, Hc.
Qed.

Lemma count_page_counted (c : counters) (Contents : option (list s3_object)) :
  counted c -> counted (count_page c Contents).
Proof.
  destruct Contents; simpl; [apply count_objects_counted | auto].
Qed.

Lemma paginate_counted (events : list page_event) (c : counters) :
  counted c -> counted (fst (paginate events c)).
Proof.
  revert c. induction events as [|[Contents|e] events IH]; intros c Hc; simpl.
  - exact Hc.
  - apply IH, count_page_counted, Hc.
  - exact Hc.
Qed.

Lemma object_count_objects (objs : list s3_object) (c : counters) :
  object_count (fold_left count_object objs c)
  = object_count c + Z.of_nat (List.length objs).
Proof.
  revert c. induction objs as [|o objs IH]; intros c.
  - simpl. lia.
  - cbn [fold_left List.length]. rewrite IH, Nat2Z.inj_succ.
    cbn [count_object object_count]. lia.
Qed.

(** The object count after a run of pages is the number of objects in
    them. *)
Lemma object_count_pages (pages : list (option (list s3_object)))
    (c : counters) :
  object_count (fold_left count_page pages c)
  = object_count c + Z.of_nat (List.length (objects_of pages)).
Proof.
  revert c. induction pages as [|[objs|] pages IH]; intros c.
  - simpl. lia.
  - change (objects_of (Some objs :: pages))
      with (objs ++ objects_of pages)%list.
    cbn [fold_left]. rewrite IH, length_app.
    cbn [count_page]. rewrite object_count_objects, Nat2Z.inj_add. lia.
  - change (objects_of (None :: pages)) with (objects_of pages).
    cbn [fold_left]. rewrite IH. reflexivity.
Qed.

(** A raise stops the page loop where it is: the pages before it are
    counted, the events after it are never asked for. *)
Lemma paginate_raises (pages : list (option (list s3_object))) (e : exn)
    (later : list page_event) (c : counters) :
  paginate (map Page pages ++ PageRaises e :: later) c
  = (fold_left count_page pages c, Some e).
Proof.
  revert c. induction pages as [|p pages IH]; intros c; simpl.
  - reflexivity.
  - apply IH.
Qed.

Lemma entry_of_well_formed (b : s3_bucket) (c : counters) :
  counted c -> well_formed (entry_of b c).
Proof.
  intros [Hs Hp]. repeat split; simpl; auto.
  intros H0. rewrite <- Hs in H0.
  apply sum_positive_zero in H0; [|exact Hp].
  unfold values in H0. now apply map_eq_nil in H0.
Qed.

(** *** The bucket loop *)

Lemma kept_well_formed (b : s3_bucket) : Forall well_formed (kept b).
Proof.
  unfold kept.
  pose proof (paginate_counted (listing b) counters0 counted0) as Hc.
  destruct (paginate (listing b) counters0) as [c raised]. simpl in Hc.
  destruct raised; [destruct (object_count c =? 0)|];
    try constructor; try constructor; now apply entry_of_well_formed.
Qed.

(** One iteration for a completing bucket. *)
Lemma scan_buckets_step (b : s3_bucket) (rest : list s3_bucket)
    (s : list bucket_summary) (p : Z) :
  completes b = true ->
  scan_buckets (b :: rest) s p
  = scan_buckets rest (s ++ kept b) (p + Z.of_nat (List.length (kept b))).
Proof.
  unfold completes, kept. simpl.
  destruct (paginate (listing b) counters0) as [c raised]. simpl.
  destruct raised as [e|]; intros H.
  - rewrite H. destruct (object_count c =? 0); simpl.
    + now rewrite app_nil_r, Z.add_0_r.
    + reflexivity.
  - reflexivity.
Qed.

(** One iteration for a bucket stopped by anything else: the loop is left
    with [summary] and [processed_buckets] as they were. *)
Lemma scan_buckets_abort (b : s3_bucket) (rest : list s3_bucket)
    (s : list bucket_summary) (p : Z) (c : counters) (e : exn) :
  paginate (listing b) counters0 = (c, Some e) ->
  is_ClientError e = false ->
  scan_buckets (b :: rest) s p = (s, p, Some e).
Proof. intros Hp He. simpl. now rewrite Hp, He. Qed.

Lemma scan_buckets_app (pre rest : list s3_bucket)
    (s : list bucket_summary) (p : Z) :
  Forall (fun b => completes b = true) pre ->
  scan_buckets (pre ++ rest) s p
  = scan_buckets rest (s ++ flat_map kept pre)
      (p + Z.of_nat (List.length (flat_map kept pre))).
Proof.
  intros H. revert s p.
  induction H as [|b pre Hb _ IH]; intros s p.
  - simpl. now rewrite app_nil_r, Z.add_0_r.
  - cbn [app flat_map]. rewrite scan_buckets_step by exact Hb.
    rewrite IH, length_app, app_assoc. f_equal. lia.
Qed.

Lemma records_of_completes (bs : list s3_bucket) :
  Forall (fun b => completes b = true) bs ->
  scan_buckets bs [] 0
  = (flat_map kept bs, Z.of_nat (List.length (flat_map kept bs)), None).
Proof.
  intros H. rewrite <- (app_nil_r bs) at 1.
  rewrite scan_buckets_app by exact H. reflexivity.
Qed.

Lemma records_of_flat_map (bs : list s3_bucket) :
  Forall (fun b => completes b = true) bs ->
  records_of bs = flat_map kept bs.
Proof.
  intros H. unfold records_of. now rewrite records_of_completes.
Qed.

(** Whatever the script, the loop only ever holds well-formed entries, and
    [processed_buckets] counts them. *)
Lemma scan_buckets_invariant (bs : list s3_bucket)
    (s : list bucket_summary) (p : Z) :
  Forall well_formed s ->
  p = Z.of_nat (List.length s) ->
  let '(s', p', _) := scan_buckets bs s p in
  Forall well_formed s' /\ p' = Z.of_nat (List.length s').
Proof.
  revert s p. induction bs as [|b bs IH]; intros s p Hs Hp.
  - simpl. auto.
  - simpl.
    pose proof (paginate_counted (listing b) counters0 counted0) as Hc.
    destruct (paginate (listing b) counters0) as [c raised]. simpl in Hc.
    assert (Hnext : Forall well_formed (s ++ [entry_of b c])).
    { apply Forall_app. split; [exact Hs|].
      constructor; [now apply entry_of_well_formed | constructor]. }
    assert (Hlen : p + 1 = Z.of_nat (List.length (s ++ [entry_of b c]))).
    { rewrite length_app. simpl. lia. }
    destruct raised as [e|].
    + destruct (is_ClientError e).
      * destruct (object_count c =? 0); apply IH; auto.
      * auto.
    + apply IH; auto.
Qed.

(** *** [get_s3_summary] *)

(** With a session and a bucket list, the function returns what the bucket
    loop left, unless the loop was left by an exception before any entry
    was appended. *)
Lemma get_s3_summary_scan (Account : option string)
    (buckets : list s3_bucket) :
  get_s3_summary {| sts := Identity Account; list_buckets := Ok buckets |}
  = let '(s, p, raised) := scan_buckets buckets [] 0 in
    match raised with
    | Some e =>
        if is_Exception e then Ok (returned s (account_of Account))
        else Raise e
    | None => Ok (returned s (account_of Account))
    end.
Proof.
  unfold get_s3_summary, try_block.
  replace (get_aws_session (sts {| sts := Identity Account;
                                   list_buckets := Ok buckets |}))
    with (Ok (Session (account_of Account)))
    by (now destruct Account).
  cbn [truthy_session negb client list_buckets getattr_account_id account_id].
  pose proof (scan_buckets_invariant buckets [] 0 (Forall_nil _) eq_refl) as Hinv.
  destruct (scan_buckets buckets [] 0) as [[s p] raised].
  destruct Hinv as [_ Hp].
  assert (Hzero : (p =? 0) = true -> s = []).
  { intros E. apply Z.eqb_eq in E. destruct s; [reflexivity|].
    simpl in Hp. lia. }
  unfold after_try, returned. cbn [summary processed_buckets total_buckets account_id].
  destruct raised as [e|].
  - destruct e; cbn [is_TimeoutException is_Exception];
      try reflexivity;
      (destruct (p =? 0) eqn:E;
        [rewrite (Hzero eq_refl); reflexivity | destruct s; reflexivity]).
  - destruct s; reflexivity.
Qed.

Lemma get_s3_summary_well_formed (w : service)
    (records : list bucket_summary) (account : option string) :
  get_s3_summary w = Ok (records, account) ->
  Forall well_formed records.
Proof.
  unfold get_s3_summary, try_block.
  destruct (get_aws_session (sts w)) as [session|e0].
  - destruct (negb (truthy_session session)).
    + intros H. inversion H. constructor.
    + destruct (client session).
      * destruct (list_buckets w) as [buckets|e1].
        -- pose proof (scan_buckets_invariant buckets [] 0 (Forall_nil _) eq_refl)
             as Hinv.
           destruct (scan_buckets buckets [] 0) as [[s p] raised].
           destruct Hinv as [Hwf _].
           assert (Hafter :
             after_try {| processed_buckets := p;
                          total_buckets := Some (Z.of_nat (List.length buckets));
                          account_id := Some (getattr_account_id session);
                          summary := Some s |} = Ok (records, account) ->
             Forall well_formed records).
           { unfold after_try. simpl. destruct s; intros H; inversion H; subst; auto. }
           destruct raised as [e|]; [|exact Hafter].
           cbn [total_buckets processed_buckets].
           destruct (is_TimeoutException e);
             [|destruct (is_Exception e); [|discriminate]];
             (destruct (p =? 0); [intros H; inversion H; constructor | exact Hafter]).
        -- cbn [total_buckets processed_buckets].
           destruct (is_TimeoutException e1); [discriminate|].
           destruct (is_Exception e1); [|discriminate].
           simpl. intros H; inversion H; constructor.
      * cbn [total_buckets processed_buckets].
        destruct (is_TimeoutException e); [discriminate|].
        destruct (is_Exception e); [|discriminate].
        simpl. intros H; inversion H; constructor.
  - cbn [total_buckets processed_buckets].
    destruct (is_TimeoutException e0); [discriminate|].
    destruct (is_Exception e0); [|discriminate].
    simpl. intros H; inversion H; constructor.
Qed.

End ScannerFacts.

(* ================================================================= *)
(** ** Properties of the reporter's aggregation *)

Module ReporterFacts.
Import Py PyFacts Scanner Reporter.

(** *** The first pass *)

(** The per-class object counts grow by the histogram's values. *)
Lemma distribute_objects (items : list (string * Z))
    (bucket_size bucket_objects : Z) (o s o' s' : dict Z) :
  distribute items bucket_size bucket_objects o s = Ok (o', s') ->
  sum (values o') = sum (values o) + sum (map snd items).
Proof.
  revert o s. induction items as [|[sc count] items IH]; intros o s; simpl.
  - intros H. inversion H; subst. unfold sum at 3. simpl. lia.
  - destruct (proportional_size bucket_size count bucket_objects) as [size|e];
      simpl; [|discriminate].
    intros H. apply IH in H. rewrite H, sum_values_iadd, sum_cons. lia.
Qed.

Lemma distribute_keys (items : list (string * Z))
    (bucket_size bucket_objects : Z) (o s o' s' : dict Z) :
  distribute items bucket_size bucket_objects o s = Ok (o', s') ->
  keys o = keys s -> keys o' = keys s'.
Proof.
  revert o s. induction items as [|[sc count] items IH]; intros o s; simpl.
  - intros H. inversion H; subst. auto.
  - destruct (proportional_size bucket_size count bucket_objects) as [size|e];
      simpl; [|discriminate].
    intros H Hk. apply IH in H; auto. now apply keys_iadd_lockstep.
Qed.

(** What an entry adds to the per-class object counts. *)
Definition class_objects (entry : bucket_summary) : Z :=
  if truthy_dict (Storage_Classes entry) && (Object_Count entry >? 0)
  then sum (values (Storage_Classes entry))
  else Object_Count entry.

Lemma collect_entry_objects (entry : bucket_summary) (o s o' s' : dict Z) :
  collect_entry entry o s = Ok (o', s') ->
  sum (values o') = sum (values o) + class_objects entry.
Proof.
  unfold collect_entry, class_objects.
  destruct (truthy_dict (Storage_Classes entry) && (Object_Count entry >? 0)).
  - apply distribute_objects.
  - intros H. inversion H; subst. apply sum_values_iadd.
Qed.

Lemma collect_entry_keys (entry : bucket_summary) (o s o' s' : dict Z) :
  collect_entry entry o s = Ok (o', s') ->
  keys o = keys s -> keys o' = keys s'.
Proof.
  unfold collect_entry.
  destruct (truthy_dict (Storage_Classes entry) && (Object_Count entry >? 0)).
  - apply distribute_keys.
  - intros H Hk. inversion H; subst. now apply keys_iadd_lockstep.
Qed.

Lemma collect_objects (summary : list bucket_summary) (o s o' s' : dict Z) :
  collect summary o s = Ok (o', s') ->
  sum (values o') = sum (values o) + sum (map class_objects summary).
Proof.
  revert o s. induction summary as [|entry summary IH]; intros o s; simpl.
  - intros H. inversion H; subst. unfold sum at 3. simpl. lia.
  - destruct (collect_entry entry o s) as [[o1 s1]|e] eqn:E; simpl;
      [|discriminate].
    intros H. apply IH in H. apply collect_entry_objects in E.
    rewrite H, E, sum_cons. lia.
Qed.

Lemma collect_keys (summary : list bucket_summary) (o s o' s' : dict Z) :
  collect summary o s = Ok (o', s') ->
  keys o = keys s -> keys o' = keys s'.
Proof.
  revert o s. induction summary as [|entry summary IH]; intros o s; simpl.
  - intros H. inversion H; subst. auto.
  - destruct (collect_entry entry o s) as [[o1 s1]|e] eqn:E; simpl;
      [|discriminate].
    intros H Hk. apply IH in H; auto. eapply collect_entry_keys; eauto.
Qed.

(** On well-formed entries the added object count is [Object_Count]. *)
Lemma class_objects_well_formed (summary : list bucket_summary) :
  Forall ScannerFacts.well_formed summary ->
  map class_objects summary = map Object_Count summary.
Proof.
  induction 1 as [|entry summary [Hsum _] _ IH]; simpl.
  - reflexivity.
  - f_equal; [|exact IH]. unfold class_objects.
    now destruct (truthy_dict (Storage_Classes entry)
                  && (Object_Count entry >? 0)).
Qed.

(** *** The second pass *)

Lemma write_buckets_totals (summary : list bucket_summary) (o s : Z) :
  write_buckets summary o s
  = (map bucket_row summary,
     o + sum (map Object_Count summary),
     s + sum (map Total_Size_Bytes summary)).
Proof.
  revert o s. induction summary as [|entry summary IH]; intros o s; simpl.
  - unfold sum. simpl. now rewrite !Z.add_0_r.
  - rewrite IH, !sum_cons. f_equal; [f_equal|]; lia.
Qed.

(** *** The returned dict *)

(** When the function returns, its dict holds the two direct totals and
    the two dictionaries of the first pass. *)
Lemma write_summary_to_csv_stats (now : string)
    (summary : list bucket_summary) (account_id : option string)
    (file : list row) (st : stats) :
  write_summary_to_csv now summary account_id = Ok (file, st) ->
  exists o s,
    collect summary [] [] = Ok (o, s)
    /\ st = {| total_buckets := Z.of_nat (List.length summary);
               total_objects := sum (map Object_Count summary);
               total_size := sum (map Total_Size_Bytes summary);
               storage_class_objects := o;
               storage_class_sizes := s |}.
Proof.
  unfold write_summary_to_csv.
  destruct (collect summary [] []) as [[o s]|e]; simpl; [|discriminate].
  rewrite write_buckets_totals. simpl.
  destruct (PyFloat.int_truediv _ GiB); simpl; [|discriminate].
  destruct (write_distribution _ o s); simpl; [|discriminate].
  intros H. inversion H; subst. eauto.
Qed.

(** *** The distribution lines *)

(** Reading a key that is present gives the same value from a plain dict
    and from a [defaultdict]. *)
Lemma distribution_lines_plain (classes : list string) (o s : dict Z) :
  (forall sc, In sc classes -> In sc (keys s)) ->
  distribution_lines true classes o s = distribution_lines false classes o s.
Proof.
  induction classes as [|sc classes IH]; intros Hin; simpl.
  - reflexivity.
  - rewrite IH by (intros; apply Hin; now right).
    assert (Hsc : In sc (keys s)) by (apply Hin; now left).
    unfold getitem, getitem_default.
    destruct (get s sc) eqn:E; [reflexivity|].
    apply get_None_keys in E. contradiction.
Qed.

(** *** Largest bucket *)

Lemma max_from_first (rest pre : list bucket_summary)
    (best : bucket_summary) (ib : nat) :
  nth_error pre ib = Some best ->
  (forall r, In r pre -> Object_Count r <= Object_Count best) ->
  (forall j r, (j < ib)%nat -> nth_error pre j = Some r ->
               Object_Count r < Object_Count best) ->
  exists i,
    nth_error (pre ++ rest) i = Some (max_from best rest)
    /\ (forall r, In r (pre ++ rest) ->
                  Object_Count r <= Object_Count (max_from best rest))
    /\ (forall j r, (j < i)%nat -> nth_error (pre ++ rest) j = Some r ->
                    Object_Count r < Object_Count (max_from best rest)).
Proof.
  revert pre best ib.
  induction rest as [|x rest IH]; intros pre best ib Hnth Hle Hlt.
  - exists ib. rewrite app_nil_r. simpl. auto.
  - simpl.
    replace (pre ++ x :: rest)%list with ((pre ++ [x]) ++ rest)%list
      by (now rewrite <- app_assoc).
    destruct (Object_Count x >? Object_Count best) eqn:E.
    + apply Z.gtb_lt in E.
      apply (IH (pre ++ [x])%list x (List.length pre)).
      * rewrite nth_error_app2 by lia. now rewrite Nat.sub_diag.
      * intros r Hr. apply in_app_or in Hr as [Hr|[Hr|[]]].
        -- specialize (Hle r Hr). lia.
        -- subst. lia.
      * intros j r Hj Hr. rewrite nth_error_app1 in Hr by exact Hj.
        apply nth_error_In in Hr. specialize (Hle r Hr). lia.
    + assert (Hx : Object_Count x <= Object_Count best).
      { destruct (Z.gtb_spec (Object_Count x) (Object_Count best));
          [discriminate | lia]. }
      apply (IH (pre ++ [x])%list best ib).
      * rewrite nth_error_app1; [exact Hnth|].
        apply nth_error_Some. congruence.
      * intros r Hr. apply in_app_or in Hr as [Hr|[Hr|[]]].
        -- auto.
        -- now subst.
      * intros j r Hj Hr.
        assert (Hib : (ib < List.length pre)%nat)
          by (apply nth_error_Some; congruence).
        rewrite nth_error_app1 in Hr by lia. eauto.
Qed.

End ReporterFacts.

(* ================================================================= *)
(** ** Properties of [format_size] *)

Module FormatFacts.
Import Py Reporter.

(** *** Suffixes of strings *)

Lemma length_append (a b : string) :
  String.length (a ++ b) = (String.length a + String.length b)%nat.
Proof. induction a as [|x a IH]; simpl; [reflexivity | now rewrite IH]. Qed.

Lemma append_assoc (a b c : string) : (a ++ b) ++ c = a ++ (b ++ c).
Proof. induction a as [|x a IH]; simpl; [reflexivity | now rewrite IH]. Qed.

(** Two decompositions of a string with tails of the same length have the
    same tail. *)
Lemma append_tail_inj (a c b d : string) :
  a ++ b = c ++ d -> String.length b = String.length d -> b = d.
Proof.
  revert c. induction a as [|x a IH]; intros [|y c] E L; simpl in E.
  - exact E.
  - subst b. simpl in L. rewrite length_append in L. lia.
  - subst d. simpl in L. rewrite length_append in L. lia.
  - injection E as _ E. now apply IH with c.
Qed.

(** [s] ends with [suffix]. *)
Definition ends_with (suffix s : string) : Prop :=
  exists body, s = body ++ suffix.

(** A string that ends with a unit of the loop does not end with ["PB"]. *)
Lemma unit_not_PB (body unit : string) :
  In unit units -> ~ ends_with "PB" (body ++ " " ++ unit).
Proof.
  intros Hin [body' E].
  unfold units in Hin. simpl in Hin.
  destruct Hin as [<-|[<-|[<-|[<-|[<-|[]]]]]].
  - change (body ++ " B" = body' ++ "PB") in E.
    apply append_tail_inj in E; [discriminate | reflexivity].
  - replace (body ++ " " ++ "KB") with ((body ++ " ") ++ "KB") in E
      by apply append_assoc.
    apply append_tail_inj in E; [discriminate | reflexivity].
  - replace (body ++ " " ++ "MB") with ((body ++ " ") ++ "MB") in E
      by apply append_assoc.
    apply append_tail_inj in E; [discriminate | reflexivity].
  - replace (body ++ " " ++ "GB") with ((body ++ " ") ++ "GB") in E
      by apply append_assoc.
    apply append_tail_inj in E; [discriminate | reflexivity].
  - replace (body ++ " " ++ "TB") with ((body ++ " ") ++ "TB") in E
      by apply append_assoc.
    apply append_tail_inj in E; [discriminate | reflexivity].
Qed.

(** *** The loop *)

Lemma of_int_raises (n : Z) (e : exn) :
  PyFloat.of_int n = Raise e -> e = OverflowError.
Proof.
  unfold PyFloat.of_int.
  destruct (binary_normalize PyFloat.prec PyFloat.emax n 0 false);
    intros H; now inversion H.
Qed.

(** One iteration on a float, for a unit other than ["B"]. *)
Lemma loop_step_float (unit : string) (rest : list string)
    (x : PyFloat.float) :
  String.eqb unit "B" = false ->
  format_size_loop (unit :: rest) (Float x)
  = if PyFloat.lt x PyFloat.f1024 || String.eqb unit "TB"
    then Ok (PyFloat.format_1f x ++ " " ++ unit)
    else format_size_loop rest
           (Float (SFdiv PyFloat.prec PyFloat.emax x PyFloat.f1024)).
Proof.
  intros H. cbn [format_size_loop lt_1024 div_1024 format_1f_of bind].
  now rewrite H.
Qed.

(** The first iteration, on the int. *)
Lemma loop_step_int (rest : list string) (n : Z) :
  format_size_loop ("B" :: rest) (Int n)
  = if n <? 1024 then Ok (format_int n ++ " B")
    else x <- PyFloat.of_int n ;;
         format_size_loop rest
           (Float (SFdiv PyFloat.prec PyFloat.emax x PyFloat.f1024)).
Proof.
  cbn [format_size_loop lt_1024 int_of div_1024 bind].
  change (String.eqb "B" "TB") with false.
  change (String.eqb "B" "B") with true.
  rewrite orb_false_r.
  destruct (n <? 1024); [reflexivity|].
  now destruct (PyFloat.of_int n).
Qed.

(** From the second unit on, the loop returns one decimal and a unit of
    the list; at ["TB"] it returns whatever the size. *)
Lemma loop_float_returns (x : PyFloat.float) :
  exists y unit,
    In unit ["KB"; "MB"; "GB"; "TB"]
    /\ format_size_loop ["KB"; "MB"; "GB"; "TB"] (Float x)
       = Ok (PyFloat.format_1f y ++ " " ++ unit).
Proof.
  rewrite loop_step_float by reflexivity.
  destruct (PyFloat.lt x PyFloat.f1024 || _).
  { exists x, "KB". split; [simpl; tauto | reflexivity]. }
  set (x1 := SFdiv _ _ x _). rewrite loop_step_float by reflexivity.
  destruct (PyFloat.lt x1 PyFloat.f1024 || _).
  { exists x1, "MB". split; [simpl; tauto | reflexivity]. }
  set (x2 := SFdiv _ _ x1 _). rewrite loop_step_float by reflexivity.
  destruct (PyFloat.lt x2 PyFloat.f1024 || _).
  { exists x2, "GB". split; [simpl; tauto | reflexivity]. }
  set (x3 := SFdiv _ _ x2 _). rewrite loop_step_float by reflexivity.
  change (String.eqb "TB" "TB") with true. rewrite orb_true_r.
  exists x3, "TB". split; [simpl; tauto | reflexivity].
Qed.

(** The shape of every result: whole bytes below 1024, otherwise one
    decimal and a unit from ["KB"] to ["TB"]; the only failure is an int
    too large for a float. *)
Lemma format_size_shape (n : Z) :
  match format_size n with
  | Ok s =>
      (n < 1024 /\ s = format_int n ++ " B")
      \/ (1024 <= n
          /\ exists y unit,
               In unit ["KB"; "MB"; "GB"; "TB"]
               /\ s = PyFloat.format_1f y ++ " " ++ unit)
  | Raise e => 1024 <= n /\ e = OverflowError
  end.
Proof.
  unfold format_size, units. rewrite loop_step_int.
  destruct (n <? 1024) eqn:E.
  - apply Z.ltb_lt in E. left. auto.
  - apply Z.ltb_ge in E.
    destruct (PyFloat.of_int n) as [x|e] eqn:Ex; cbn [bind].
    + destruct (loop_float_returns
                  (SFdiv PyFloat.prec PyFloat.emax x PyFloat.f1024))
        as (y & unit & Hin & ->).
      right. eauto.
    + split; [exact E | eapply of_int_raises; eauto].
Qed.

Lemma format_size_unit (n : Z) (s : string) :
  format_size n = Ok s ->
  exists body unit, In unit units /\ s = body ++ " " ++ unit.
Proof.
  intros H. pose proof (format_size_shape n) as S. rewrite H in S.
  destruct S as [[_ ->]|[_ (y & unit & Hin & ->)]].
  - exists (format_int n), "B". split; [simpl; auto | reflexivity].
  - exists (PyFloat.format_1f y), unit. split; [|reflexivity].
    unfold units. simpl in *. tauto.
Qed.

End FormatFacts.

(* ================================================================= *)
(** ** Binary64 rounding, from [SpecFloat]'s definitions *)

Module Binary64.
Import Py.

(** Positivity of a power of two whose exponent [lia] can bound. *)
Ltac pow2_pos := apply Z.pow_pos_nonneg; lia.

(** Splitting a power of two: [2 ^ a * 2 ^ b = 2 ^ c] when [a + b = c]. *)
Ltac pow2_split := rewrite <- !Z.pow_add_r by lia; f_equal; lia.

(** *** Digits *)

Lemma digits2_pos_bounds (p : positive) :
  2 ^ (Zpos (digits2_pos p) - 1) <= Zpos p < 2 ^ Zpos (digits2_pos p).
Proof.
  induction p as [p IH|p IH|]; cbn [digits2_pos].
  - rewrite Pos2Z.inj_succ.
    replace (Z.succ (Zpos (digits2_pos p)) - 1)
      with (Z.succ (Zpos (digits2_pos p) - 1)) by lia.
    rewrite !Z.pow_succ_r by lia. lia.
  - rewrite Pos2Z.inj_succ.
    replace (Z.succ (Zpos (digits2_pos p)) - 1)
      with (Z.succ (Zpos (digits2_pos p) - 1)) by lia.
    rewrite !Z.pow_succ_r by lia. lia.
  - simpl. lia.
Qed.

Lemma digits2_pos_unique (p : positive) (d : Z) :
  2 ^ (d - 1) <= Zpos p < 2 ^ d -> Zpos (digits2_pos p) = d.
Proof.
  intros [H1 H2]. pose proof (digits2_pos_bounds p) as [B1 B2].
  assert (0 < d).
  { destruct d as [|d|d]; [simpl in H2; lia | lia |].
    rewrite Z.pow_neg_r in H2 by lia. lia. }
  destruct (Z.lt_trichotomy (Zpos (digits2_pos p)) d) as [L|[E|G]]; auto.
  - assert (2 ^ Zpos (digits2_pos p) <= 2 ^ (d - 1))
      by (apply Z.pow_le_mono_r; lia).
    lia.
  - assert (2 ^ d <= 2 ^ (Zpos (digits2_pos p) - 1))
      by (apply Z.pow_le_mono_r; lia).
    lia.
Qed.

(** *** Shifting right with a rounding record *)

(** Where the rational [N / D] lies between [N / D] (the integer quotient)
    and its successor. *)
Definition loc_of (N D : Z) : location :=
  if N mod D =? 0 then loc_Exact else loc_Inexact (2 * (N mod D) ?= D).

(** The record holds the integer part of [N / D] and the position of the
    rest. *)
Definition describes (mrs : shr_record) (N D : Z) : Prop :=
  shr_m mrs = N / D /\ loc_of_shr_record mrs = loc_of N D.

Section Shift.

(** The numerator is fixed and not negative; the denominator doubles at
    each place shifted out. *)
Variable N : Z.
Hypothesis HN : 0 <= N.

Lemma shr_1_describes (mrs : shr_record) (D : Z) :
  0 < D -> describes mrs N D -> describes (shr_1 mrs) N (2 * D).
Proof.
  intros HD [Hm Hl].
  pose proof (Z.div_mod N D ltac:(lia)) as Hdm.
  pose proof (Z.mod_pos_bound N D HD) as Hr.
  pose proof (Z.div_pos N D HN HD) as Hq.
  destruct mrs as [m r s]. cbn [shr_m] in Hm.
  unfold loc_of in Hl.
  assert (Hcases : exists (m' : Z) (b : bool),
             m = 2 * m' + (if b then 1 else 0) /\ 0 <= m'
             /\ shr_1 {| shr_m := m; shr_r := r; shr_s := s |}
                = {| shr_m := m'; shr_r := b; shr_s := r || s |}).
  { destruct m as [|[p|p|]|p]; try lia.
    - exists 0, false. simpl. auto with zarith.
    - exists (Zpos p), true. simpl; repeat split; lia.
    - exists (Zpos p), false. simpl; repeat split; lia.
    - exists 0, true. simpl. repeat split; lia. }
  destruct Hcases as (m' & b & Em & Hm' & ->).
  assert (Hdiv : N / (2 * D) = m'
                 /\ N mod (2 * D) = (if b then D else 0) + N mod D).
  { assert (N = (2 * D) * m' + ((if b then D else 0) + N mod D)) as EN.
    { rewrite Hdm at 1. rewrite <- Hm, Em. destruct b; lia. }
    split; symmetry.
    - apply Z.div_unique with ((if b then D else 0) + N mod D);
        [destruct b; lia | exact EN].
    - apply Z.mod_unique with m'; [destruct b; lia | exact EN]. }
  destruct Hdiv as [Hd2 Hm2].
  split; cbn [shr_m]; [lia|].
  unfold loc_of. rewrite Hm2.
  cbn [loc_of_shr_record] in *.
  assert (Hrs : r || s = negb (N mod D =? 0)).
  { destruct (N mod D =? 0), r, s; try reflexivity; discriminate. }
  rewrite Hrs.
  destruct b, (Z.eqb_spec (N mod D) 0) as [E0|E0]; cbn [negb];
    match goal with
    | |- context [?x =? 0] => destruct (Z.eqb_spec x 0); try lia
    end;
    try reflexivity;
    match goal with
    | |- context [?x ?= ?y] => destruct (Z.compare_spec x y); try lia
    end;
    reflexivity.
Qed.

Lemma iter_pos_shr_1 (p : positive) (mrs : shr_record) (D : Z) :
  0 < D -> describes mrs N D ->
  describes (iter_pos shr_1 p mrs) N (2 ^ Zpos p * D).
Proof.
  revert mrs D.
  induction p as [p IH|p IH|]; intros mrs D HD H; cbn [iter_pos].
  - assert (0 < 2 ^ Zpos p) by pow2_pos.
    replace (2 ^ Zpos p~1 * D) with (2 ^ Zpos p * (2 ^ Zpos p * (2 * D))).
    + apply IH; [nia|]. apply IH; [lia|]. now apply shr_1_describes.
    + replace (Zpos p~1) with (Zpos p + Zpos p + 1) by lia.
      rewrite !Z.pow_add_r by lia. ring.
  - assert (0 < 2 ^ Zpos p) by pow2_pos.
    replace (2 ^ Zpos p~0 * D) with (2 ^ Zpos p * (2 ^ Zpos p * D)).
    + apply IH; [nia|]. now apply IH.
    + replace (Zpos p~0) with (Zpos p + Zpos p) by lia.
      rewrite !Z.pow_add_r by lia. ring.
  - change (2 ^ 1) with 2. now apply shr_1_describes.
Qed.

Lemma shr_record_of_loc_describes (D : Z) :
  describes (shr_record_of_loc (N / D) (loc_of N D)) N D.
Proof.
  split.
  - now destruct (loc_of N D) as [|[]].
  - now destruct (loc_of N D) as [|[]].
Qed.

(** [shr] by [k >= 0] places multiplies the denominator by [2 ^ k]. *)
Lemma shr_describes (mrs : shr_record) (D e k : Z) :
  0 < D -> 0 <= k -> describes mrs N D ->
  describes (fst (shr mrs e k)) N (2 ^ k * D)
  /\ snd (shr mrs e k) = e + k.
Proof.
  intros HD Hk H. destruct k as [|k|k]; [| |lia]; cbn [shr fst snd].
  - rewrite Z.pow_0_r, Z.mul_1_l, Z.add_0_r. auto.
  - split; [|reflexivity]. now apply iter_pos_shr_1.
Qed.

(** The rounded mantissa is within half a unit of [N / D], and is [N / D]
    when the division is exact. *)
Lemma round_nearest_even_near (mrs : shr_record) (D : Z) :
  0 < D -> describes mrs N D ->
  let m := round_nearest_even (shr_m mrs) (loc_of_shr_record mrs) in
  N / D <= m <= N / D + 1
  /\ 2 * m * D - D <= 2 * N <= 2 * m * D + D
  /\ (N mod D = 0 -> m = N / D).
Proof.
  intros HD [Hm Hl] m. subst m. rewrite Hm, Hl.
  pose proof (Z.div_mod N D ltac:(lia)) as Hdm.
  pose proof (Z.mod_pos_bound N D HD) as Hr.
  unfold loc_of.
  destruct (Z.eqb_spec (N mod D) 0) as [E0|E0]; cbn [round_nearest_even].
  - repeat split; try lia; nia.
  - destruct (Z.compare_spec (2 * (N mod D)) D) as [E|L|G].
    + destruct (Z.even (N / D)); repeat split; try lia; nia.
    + repeat split; try lia; nia.
    + repeat split; try lia; nia.
Qed.

End Shift.

(** *** [binary_round_aux] in the normal range

    [N / D] is a positive rational with [d >= 53] binary digits before the
    point, read at exponent [e]; it is represented by its integer part and
    the location of the rest.  The result is a float [m3 * 2 ^ e3] with a
    53-bit mantissa, within half a unit in the last place of
    [N / D * 2 ^ e], and equal to it when it is representable. *)

Lemma fexp_normal (x : Z) : -1021 <= x -> fexp PyFloat.prec PyFloat.emax x = x - 53.
Proof. unfold fexp, emin, PyFloat.prec, PyFloat.emax. lia. Qed.

Lemma quotient_digits (N D d : Z) :
  0 < D -> 2 ^ (d - 1) * D <= N < 2 ^ d * D -> 1 <= d ->
  2 ^ (d - 1) <= N / D < 2 ^ d.
Proof.
  intros HD [H1 H2] Hd. split.
  - apply Z.div_le_lower_bound; lia.
  - apply Z.div_lt_upper_bound; lia.
Qed.

Lemma Zdigits2_unique (m d : Z) :
  1 <= d -> 2 ^ (d - 1) <= m < 2 ^ d -> Zdigits2 m = d.
Proof.
  intros Hd H.
  assert (0 < 2 ^ (d - 1)) by pow2_pos.
  destruct m as [|p|p]; try lia.
  simpl. now apply digits2_pos_unique.
Qed.

Lemma binary_round_aux_normal (N D e d : Z) :
  0 < D -> 53 <= d ->
  2 ^ (d - 1) * D <= N < 2 ^ d * D ->
  -1074 <= e + (d - 53) -> e + (d - 53) + 1 <= 971 ->
  exists (m3 : positive) (e3 : Z),
    binary_round_aux PyFloat.prec PyFloat.emax false (N / D) e (loc_of N D)
    = S754_finite false m3 e3
    /\ 2 ^ 52 <= Zpos m3 < 2 ^ 53
    /\ e + (d - 53) <= e3 <= e + (d - 53) + 1
    /\ 2 * Zpos m3 * (2 ^ (e3 - e) * D) - 2 ^ (e3 - e) * D <= 2 * N
       <= 2 * Zpos m3 * (2 ^ (e3 - e) * D) + 2 ^ (e3 - e) * D
    /\ (N mod (2 ^ (d - 53) * D) = 0 ->
        e3 = e + (d - 53) /\ Zpos m3 * (2 ^ (d - 53) * D) = N).
Proof.
  intros HD Hd HN He1 He2.
  set (k := d - 53) in *.
  assert (Hk : 0 <= k) by (unfold k; lia).
  assert (HN0 : 0 <= N).
  { assert (0 < 2 ^ (d - 1)) by pow2_pos. nia. }
  pose proof (quotient_digits N D d HD HN ltac:(lia)) as Hm.
  pose proof (Zdigits2_unique (N / D) d ltac:(lia) Hm) as Hdig.
  assert (Hpk : 0 < 2 ^ k) by pow2_pos.
  assert (Hsplit : 2 ^ (d - 1) = 2 ^ 52 * 2 ^ k /\ 2 ^ d = 2 ^ 53 * 2 ^ k).
  { split; rewrite <- Z.pow_add_r by lia; f_equal; unfold k; lia. }
  destruct Hsplit as [Hs1 Hs2].
  (* first shift *)
  unfold binary_round_aux, shr_fexp.
  rewrite Hdig, fexp_normal by lia.
  replace (d + e - 53 - e) with k by (unfold k; lia).
  destruct (shr_describes N HN0 (shr_record_of_loc (N / D) (loc_of N D))
              D e k HD Hk (shr_record_of_loc_describes N D))
    as [Hdesc He].
  destruct (shr (shr_record_of_loc (N / D) (loc_of N D)) e k) as [mrs1 e1].
  cbn [fst snd] in Hdesc, He. subst e1.
  set (D' := 2 ^ k * D) in *.
  assert (HD' : 0 < D') by (unfold D'; nia).
  destruct (round_nearest_even_near N mrs1 D' HD' Hdesc)
    as (Hnear & Hhalf & Hexact).
  set (m2 := round_nearest_even (shr_m mrs1) (loc_of_shr_record mrs1)) in *.
  assert (Hm1 : 2 ^ 52 <= N / D' < 2 ^ 53).
  { split.
    - apply Z.div_le_lower_bound; [lia|]. unfold D'. nia.
    - apply Z.div_lt_upper_bound; [lia|]. unfold D'. nia. }
  (* second shift *)
  destruct (Z.eq_dec m2 (2 ^ 53)) as [Ecarry|Hnocarry].
  - (* the rounding carried into a 54th bit *)
    rewrite Ecarry.
    change (Zdigits2 (2 ^ 53)) with 54.
    rewrite fexp_normal by lia.
    replace (54 + (e + k) - 53 - (e + k)) with 1 by lia.
    replace (shr (shr_record_of_loc (2 ^ 53) loc_Exact) (e + k) 1)
      with ({| shr_m := Zpos 4503599627370496;
               shr_r := false; shr_s := false |}, e + k + 1)
      by reflexivity.
    cbn [shr_m].
    replace (e + k + 1 <=? PyFloat.emax - PyFloat.prec) with true
      by (symmetry; apply Z.leb_le;
          unfold PyFloat.emax, PyFloat.prec; lia).
    exists 4503599627370496%positive, (e + k + 1).
    split; [reflexivity|].
    split; [lia|]. split; [lia|].
    replace (e + k + 1 - e) with (k + 1) by lia.
    rewrite Z.pow_add_r by lia. change (2 ^ 1) with 2.
    fold D' in Hhalf |- *.
    split.
    + rewrite Ecarry in Hhalf. lia.
    + intros Hex. apply Hexact in Hex. lia.
  - (* it did not *)
    assert (Hm2 : 2 ^ 52 <= m2 < 2 ^ 53) by lia.
    assert (Hdig2 : Zdigits2 m2 = 53).
    { apply Zdigits2_unique; [lia|]. change (53 - 1) with 52. exact Hm2. }
    rewrite Hdig2, fexp_normal by lia.
    replace (53 + (e + k) - 53 - (e + k)) with 0 by lia.
    cbn [shr_record_of_loc shr shr_m].
    clearbody m2.
    destruct m2 as [|p2|p2]; [lia| |lia].
    replace (e + k <=? PyFloat.emax - PyFloat.prec) with true
      by (symmetry; apply Z.leb_le;
          unfold PyFloat.emax, PyFloat.prec; lia).
    exists p2, (e + k). split; [reflexivity|].
    split; [exact Hm2|]. split; [lia|].
    replace (e + k - e) with k by lia. fold D'.
    split; [lia|].
    intros Hex. split; [reflexivity|].
    rewrite (Hexact Hex).
    pose proof (Z.div_mod N D' ltac:(lia)) as Hdm. lia.
Qed.

Lemma loc_of_1 (N : Z) : loc_of N 1 = loc_Exact.
Proof. unfold loc_of. now rewrite Z.mod_1_r. Qed.

Lemma iter_xO (n p : positive) :
  Zpos (Pos.iter xO p n) = Zpos p * 2 ^ Zpos n.
Proof.
  induction n as [|n IH] using Pos.peano_ind.
  - simpl. lia.
  - rewrite Pos.iter_succ, Pos2Z.inj_xO, IH, Pos2Z.inj_succ,
      Z.pow_succ_r by lia.
    ring.
Qed.

(** *** [float(n)] below [2 ^ 53] is exact *)

Lemma of_int_exact (n : Z) :
  0 < n < 2 ^ 53 ->
  exists (m : positive) (e : Z),
    PyFloat.of_int n = Ok (S754_finite false m e)
    /\ 2 ^ 52 <= Zpos m < 2 ^ 53
    /\ -52 <= e <= 0
    /\ Zpos m = n * 2 ^ (- e).
Proof.
  intros Hn. destruct n as [|p|p]; try lia.
  pose proof (digits2_pos_bounds p) as Hd.
  set (d := Zpos (digits2_pos p)) in *.
  assert (Hd1 : 1 <= d) by (unfold d; lia).
  assert (Hd53 : d <= 53).
  { destruct (Z_le_gt_dec d 53) as [|G]; [assumption|].
    assert (2 ^ 53 <= 2 ^ (d - 1)) by (apply Z.pow_le_mono_r; lia). lia. }
  unfold PyFloat.of_int, binary_normalize, binary_round.
  fold d.
  rewrite fexp_normal by lia. unfold shl_align.
  replace (d + 0 - 53 - 0) with (d - 53) by lia.
  (* the mantissa is aligned on 53 bits: [M = p * 2 ^ (53 - d)] *)
  assert (Haligned : exists (M : positive),
             (match d - 53 with
              | Z.neg k => (Pos.iter xO p k, d + 0 - 53)
              | _ => (p, 0)
              end) = (M, d - 53)
             /\ Zpos M = Zpos p * 2 ^ (53 - d)).
  { destruct (d - 53) as [|k|k] eqn:E; try lia.
    - exists p. replace (53 - d) with 0 by lia. split; [reflexivity | lia].
    - exists (Pos.iter xO p k). split; [f_equal; lia|].
      rewrite iter_xO. f_equal. f_equal. lia. }
  destruct Haligned as (M & -> & HM).
  assert (Hp2 : 2 ^ (53 - d) * 2 ^ (d - 1) = 2 ^ 52
                /\ 2 ^ (53 - d) * 2 ^ d = 2 ^ 53).
  { split; rewrite <- Z.pow_add_r by lia; f_equal; lia. }
  assert (Hpos : 0 < 2 ^ (53 - d)) by pow2_pos.
  assert (HM53 : 2 ^ 52 <= Zpos M < 2 ^ 53) by nia.
  destruct (binary_round_aux_normal (Zpos M) 1 (d - 53) 53)
    as (m3 & e3 & Hr & Hm3 & He3 & _ & Hex); try lia.
  rewrite Z.div_1_r, loc_of_1 in Hr. rewrite Hr.
  destruct Hex as [-> Hex]; [now rewrite Z.mul_1_r, Z.mod_1_r|].
  exists m3, (d - 53 + (53 - 53)).
  split; [reflexivity|]. split; [exact Hm3|]. split; [lia|].
  replace (- (d - 53 + (53 - 53))) with (53 - d) by lia.
  change (2 ^ (53 - 53)) with 1 in Hex. lia.
Qed.

(** *** The int true division is within half a unit in the last place *)

Lemma new_location_loc_of (N D : Z) :
  0 < D -> new_location D (N mod D) = loc_of N D.
Proof.
  intros HD. unfold new_location, new_location_even, new_location_odd, loc_of.
  pose proof (Z.mod_pos_bound N D HD) as Hr.
  destruct (Z.even D) eqn:Ev; [reflexivity|].
  destruct (Z.eqb_spec (N mod D) 0); [reflexivity|].
  f_equal.
  assert (Hodd : Z.odd D = true) by (now rewrite <- Z.negb_even, Ev).
  apply Z.odd_spec in Hodd. destruct Hodd as [h Hh].
  destruct (Z.compare_spec (2 * (N mod D) + 1) D);
    destruct (Z.compare_spec (2 * (N mod D)) D); try reflexivity; lia.
Qed.

Lemma div_eucl_div_mod (a b : Z) : Z.div_eucl a b = (a / b, a mod b).
Proof. unfold Z.div, Z.modulo. now destruct (Z.div_eucl a b). Qed.

Lemma digits_le (p q : positive) :
  Zpos p <= Zpos q -> Zpos (digits2_pos p) <= Zpos (digits2_pos q).
Proof.
  intros H. pose proof (digits2_pos_bounds p). pose proof (digits2_pos_bounds q).
  destruct (Z_le_gt_dec (Zpos (digits2_pos p)) (Zpos (digits2_pos q)))
    as [|G]; [assumption|].
  assert (2 ^ Zpos (digits2_pos q) <= 2 ^ (Zpos (digits2_pos p) - 1))
    by (apply Z.pow_le_mono_r; lia).
  lia.
Qed.

Lemma int_truediv_near (c n : Z) :
  0 < c <= n -> n < 2 ^ 64 ->
  exists (m : positive) (e : Z),
    PyFloat.int_truediv c n = Ok (S754_finite false m e)
    /\ 2 ^ 52 <= Zpos m < 2 ^ 53
    /\ -119 <= e <= -51
    /\ 2 * Zpos m * n - n <= 2 * c * 2 ^ (- e) <= 2 * Zpos m * n + n
    /\ (c = n -> Zpos m = 2 ^ 52 /\ e = -52).
Proof.
  intros Hc Hn.
  destruct c as [|pc|pc]; try lia. destruct n as [|pn|pn]; try lia.
  pose proof (digits2_pos_bounds pc) as Hd1.
  pose proof (digits2_pos_bounds pn) as Hd2.
  pose proof (digits_le pc pn ltac:(lia)) as Hle.
  set (d1 := Zpos (digits2_pos pc)) in *.
  set (d2 := Zpos (digits2_pos pn)) in *.
  assert (Hd2max : d2 <= 64).
  { destruct (Z_le_gt_dec d2 64) as [|G]; [assumption|].
    assert (2 ^ 64 <= 2 ^ (d2 - 1)) by (apply Z.pow_le_mono_r; lia). lia. }
  assert (Hd1min : 1 <= d1) by (unfold d1; lia).
  set (s := 53 + d2 - d1).
  assert (Hcore : SFdiv_core_binary PyFloat.prec PyFloat.emax (Zpos pc) 0 (Zpos pn) 0
                  = ((Zpos pc * 2 ^ s) / Zpos pn, - s,
                     loc_of (Zpos pc * 2 ^ s) (Zpos pn))).
  { unfold SFdiv_core_binary. cbn [Zdigits2]. fold d1 d2.
    rewrite fexp_normal by lia.
    replace (Z.min (d1 + 0 - (d2 + 0) - 53) (0 - 0)) with (- s)
      by (unfold s; lia).
    replace (0 - 0 - - s) with s by lia.
    destruct s as [|ps|ps] eqn:Es; try lia.
    rewrite Z.shiftl_mul_pow2 by lia.
    rewrite div_eucl_div_mod, new_location_loc_of by lia.
    reflexivity. }
  unfold PyFloat.int_truediv. cbn [Z.eqb PyFloat.raw].
  unfold SFdiv. rewrite Hcore. cbn [xorb].
  (* the quotient has 53 or 54 bits *)
  assert (Hs : 0 < 2 ^ s) by (apply Z.pow_pos_nonneg; unfold s; lia).
  assert (Hlow : 2 ^ 52 * Zpos pn <= Zpos pc * 2 ^ s).
  { assert (2 ^ (d1 - 1) * 2 ^ s = 2 ^ 52 * 2 ^ d2)
      by (rewrite <- !Z.pow_add_r by (unfold s; lia); f_equal; unfold s; lia).
    nia. }
  assert (Hhigh : Zpos pc * 2 ^ s < 2 ^ 54 * Zpos pn).
  { assert (2 ^ d1 * 2 ^ s = 2 ^ 54 * 2 ^ (d2 - 1))
      by (rewrite <- !Z.pow_add_r by (unfold s; lia); f_equal; unfold s; lia).
    nia. }
  assert (Hd : exists d, 53 <= d <= 54
                 /\ 2 ^ (d - 1) * Zpos pn <= Zpos pc * 2 ^ s < 2 ^ d * Zpos pn).
  { destruct (Z_lt_le_dec (Zpos pc * 2 ^ s) (2 ^ 53 * Zpos pn)).
    - exists 53. change (2 ^ (53 - 1)) with (2 ^ 52). lia.
    - exists 54. change (2 ^ (54 - 1)) with (2 ^ 53). lia. }
  destruct Hd as (d & Hd & Hq).
  destruct (binary_round_aux_normal (Zpos pc * 2 ^ s) (Zpos pn) (- s) d)
    as (m3 & e3 & Hr & Hm3 & He3 & Hhalf & Hex);
    try lia; try (unfold s; lia).
  rewrite Hr.
  exists m3, e3. split; [reflexivity|]. split; [exact Hm3|].
  split; [unfold s in *; lia|].
  split.
  - (* divide the bound by [2 ^ (e3 + s)] *)
    set (t := e3 - - s) in *.
    assert (Ht : 0 <= t <= 2) by (unfold t; lia).
    assert (Hpt : 0 < 2 ^ t) by pow2_pos.
    assert (Hst : 2 ^ s = 2 ^ t * 2 ^ (- e3)).
    { rewrite <- Z.pow_add_r by (unfold t, s in *; lia).
      f_equal. unfold t. lia. }
    rewrite Hst in Hhalf. nia.
  - intros E. injection E as E. subst pc.
    assert (Hsd : s = 53) by (unfold s, d1, d2; lia).
    rewrite Hsd in *.
    assert (Hd54 : d = 54).
    { destruct (Z.eq_dec d 53) as [->|]; [|lia].
      change (2 ^ 53) with (2 ^ 53) in Hq. lia. }
    subst d.
    destruct Hex as [He Hm].
    { change (2 ^ (54 - 53)) with 2.
      replace (Zpos pn * 2 ^ 53) with (2 ^ 52 * (2 * Zpos pn)) by
        (change (2 ^ 53) with (2 * 2 ^ 52); ring).
      apply Z.mod_mul. lia. }
    change (2 ^ (54 - 53)) with 2 in Hm.
    change (2 ^ 53) with (2 * 2 ^ 52) in Hm.
    split; [nia | lia].
Qed.

(** *** The product is within half a unit in the last place *)

Lemma mul_near (mx my : positive) (ex ey : Z) :
  2 ^ 52 <= Zpos mx < 2 ^ 53 -> 2 ^ 52 <= Zpos my < 2 ^ 53 ->
  -1000 <= ex + ey <= 800 ->
  exists (m : positive) (e : Z),
    PyFloat.mul (S754_finite false mx ex) (S754_finite false my ey)
    = S754_finite false m e
    /\ 2 ^ 52 <= Zpos m < 2 ^ 53
    /\ 52 <= e - (ex + ey) <= 54
    /\ 2 * Zpos m * 2 ^ (e - (ex + ey)) - 2 ^ (e - (ex + ey))
       <= 2 * (Zpos mx * Zpos my)
       <= 2 * Zpos m * 2 ^ (e - (ex + ey)) + 2 ^ (e - (ex + ey))
    /\ (Zpos my = 2 ^ 52 -> m = mx /\ e = ex + ey + 52).
Proof.
  intros Hx Hy He.
  unfold PyFloat.mul, SFmul. cbn [xorb].
  rewrite Pos2Z.inj_mul.
  set (N := Zpos mx * Zpos my).
  assert (HN : 2 ^ 104 <= N < 2 ^ 106).
  { change (2 ^ 104) with (2 ^ 52 * 2 ^ 52).
    change (2 ^ 106) with (2 ^ 53 * 2 ^ 53). unfold N. nia. }
  assert (Hd : exists d, 105 <= d <= 106 /\ 2 ^ (d - 1) * 1 <= N < 2 ^ d * 1).
  { destruct (Z_lt_le_dec N (2 ^ 105)).
    - exists 105. change (2 ^ (105 - 1)) with (2 ^ 104). lia.
    - exists 106. change (2 ^ (106 - 1)) with (2 ^ 105). lia. }
  destruct Hd as (d & Hd & Hq).
  destruct (binary_round_aux_normal N 1 (ex + ey) d)
    as (m3 & e3 & Hr & Hm3 & He3 & Hhalf & Hex); try lia.
  rewrite Z.div_1_r, loc_of_1 in Hr. rewrite Hr.
  exists m3, e3. split; [reflexivity|]. split; [exact Hm3|].
  split; [lia|]. split; [lia|].
  intros E.
  assert (Hd105 : d = 105).
  { destruct (Z.eq_dec d 106) as [->|]; [|lia].
    change (2 ^ (106 - 1)) with (2 ^ 53 * 2 ^ 52) in Hq. unfold N in Hq. nia. }
  subst d. change (2 ^ (105 - 53)) with (2 ^ 52) in Hex.
  destruct Hex as [-> Hm].
  - unfold N. rewrite E, Z.mul_1_r. apply Z.mod_mul. lia.
  - split; [|lia]. unfold N in Hm. rewrite E in Hm. 
    assert (Zpos m3 = Zpos mx) by nia. congruence.
Qed.

(** *** Truncation *)

Lemma to_int_div (m : positive) (e w : Z) :
  0 <= w -> 0 <= w + e ->
  PyFloat.to_int (S754_finite false m e)
  = Ok (Zpos m * 2 ^ (w + e) / 2 ^ w).
Proof.
  intros Hw Hwe. unfold PyFloat.to_int. f_equal.
  assert (Hpw : 0 < 2 ^ w) by pow2_pos.
  destruct e as [|k|k].
  - rewrite Z.shiftl_0_r, Z.add_0_r, Z.div_mul by lia. reflexivity.
  - rewrite Z.shiftl_mul_pow2, (Z.add_comm w), Z.pow_add_r by lia.
    rewrite Z.mul_assoc, Z.div_mul by lia. reflexivity.
  - rewrite Z.shiftr_div_pow2 by lia.
    assert (0 < 2 ^ (w + Zneg k)) by pow2_pos.
    assert (0 < 2 ^ Zpos k) by pow2_pos.
    replace (2 ^ w) with (2 ^ Zpos k * 2 ^ (w + Zneg k))
      by pow2_split.
    rewrite Z.div_mul_cancel_r by lia. reflexivity.
Qed.

(** *** Two roundings and a truncation

    The arithmetic behind the proportional split: [p] is the rounded
    quotient [c / n] at scale [A], [y] the rounded product of the exact
    [S] (at scale [F]) with [p], read at scale [A * F].  With
    [S * c <= 2 ^ 51] the two relative errors of [2 ^ -53] cannot carry
    [y] across the integer above [S * c / n], nor more than one below. *)
Lemma two_roundings (S c n mp A F my T : Z) :
  0 < S -> 0 < c -> 0 < n -> S * c <= 2 ^ 51 ->
  2 ^ 52 <= mp -> 2 ^ 52 <= my -> 0 < A -> 0 < F -> 0 < T ->
  2 * mp * n - n <= 2 * c * A <= 2 * mp * n + n ->
  2 * my * T - T <= 2 * (S * F * mp) <= 2 * my * T + T ->
  S * c / n - 1 <= my * T / (A * F) <= S * c / n.
Proof.
  intros HS Hc Hn HK Hmp Hmy HA HF HT [D1 D2] [M1 M2].
  set (U := 2 ^ 53).
  set (K := S * c) in *.
  set (Y := my * T).
  set (P := S * F * mp) in *.
  set (W := A * F).
  set (Q := mp * n).
  set (R := c * A).
  assert (HW : 0 < W) by (unfold W; nia).
  assert (HY : 2 ^ 52 * T <= Y) by (unfold Y; nia).
  assert (HQ : 2 ^ 52 * n <= Q) by (unfold Q; nia).
  assert (HP0 : 0 <= P) by (unfold P; nia).
  assert (HSF : 0 <= S * F) by nia.
  assert (HY0 : 0 <= Y) by lia.
  assert (HKW : K * W = S * F * R) by (unfold K, W, R; ring).
  assert (HPn : P * n = S * F * Q) by (unfold P, Q; ring).
  pose proof (Z.div_mod K n ltac:(lia)) as HKn.
  pose proof (Z.mod_pos_bound K n Hn) as HKr.
  set (Fl := K / n) in *.
  split.
  - (* at most one below *)
    apply Z.div_le_lower_bound; [exact HW|].
    destruct (Z_le_gt_dec (W * (Fl - 1)) Y) as [|G]; [assumption|exfalso].
    assert (E1 : U * P <= (U + 1) * Y) by (unfold U; lia).
    assert (E2 : U * R <= (U + 1) * Q) by (unfold U, R, Q in *; lia).
    assert (E3 : U * (K * W) <= (U + 1) * (P * n)).
    { rewrite HKW, HPn.
      replace (U * (S * F * R)) with (S * F * (U * R)) by ring.
      replace ((U + 1) * (S * F * Q)) with (S * F * ((U + 1) * Q)) by ring.
      now apply Z.mul_le_mono_nonneg_l. }
    assert (E4 : U * (P * n) <= (U + 1) * (Y * n)).
    { replace (U * (P * n)) with (U * P * n) by ring.
      replace ((U + 1) * (Y * n)) with ((U + 1) * Y * n) by ring.
      apply Z.mul_le_mono_nonneg_r; lia. }
    assert (E5 : U * U * (K * W) <= (U + 1) * (U + 1) * (Y * n)).
    { assert (U * (U * (K * W)) <= U * ((U + 1) * (P * n)))
        by (apply Z.mul_le_mono_nonneg_l; [unfold U|]; lia).
      assert ((U + 1) * (U * (P * n)) <= (U + 1) * ((U + 1) * (Y * n)))
        by (apply Z.mul_le_mono_nonneg_l; [unfold U|]; lia).
      lia. }
    assert (E6 : Y * n < W * (K - n)).
    { assert (Y * n < W * (Fl - 1) * n)
        by (apply Z.mul_lt_mono_pos_r; lia).
      assert (W * (Fl - 1) * n <= W * (K - n)).
      { replace (W * (Fl - 1) * n) with (W * ((Fl - 1) * n)) by ring.
        apply Z.mul_le_mono_nonneg_l; lia. }
      lia. }
    assert (E7 : (U + 1) * (U + 1) * (Y * n)
                 <= (U + 1) * (U + 1) * (W * (K - n)))
      by (apply Z.mul_le_mono_nonneg_l; [unfold U|]; lia).
    assert (E8 : W * (U * U * K) <= W * ((U + 1) * (U + 1) * (K - n)))
      by lia.
    apply Z.mul_le_mono_pos_l in E8; [|exact HW].
    unfold U in E8. lia.
  - (* never above *)
    apply Z.lt_succ_r. apply Z.div_lt_upper_bound; [exact HW|].
    destruct (Z_lt_le_dec Y (W * Z.succ Fl)) as [|G]; [assumption|exfalso].
    assert (E1 : (U - 1) * Y <= U * P) by (unfold U; lia).
    assert (E2 : (U - 1) * Q <= U * R) by (unfold U, R, Q in *; lia).
    assert (E3 : (U - 1) * (P * n) <= U * (K * W)).
    { rewrite HKW, HPn.
      replace (U * (S * F * R)) with (S * F * (U * R)) by ring.
      replace ((U - 1) * (S * F * Q)) with (S * F * ((U - 1) * Q)) by ring.
      now apply Z.mul_le_mono_nonneg_l. }
    assert (E4 : (U - 1) * (Y * n) <= U * (P * n)).
    { replace (U * (P * n)) with (U * P * n) by ring.
      replace ((U - 1) * (Y * n)) with ((U - 1) * Y * n) by ring.
      apply Z.mul_le_mono_nonneg_r; lia. }
    assert (E5 : (U - 1) * (U - 1) * (Y * n) <= U * U * (K * W)).
    { assert ((U - 1) * ((U - 1) * (Y * n)) <= (U - 1) * (U * (P * n)))
        by (apply Z.mul_le_mono_nonneg_l; [unfold U|]; lia).
      assert (U * ((U - 1) * (P * n)) <= U * (U * (K * W)))
        by (apply Z.mul_le_mono_nonneg_l; [unfold U|]; lia).
      lia. }
    assert (E6 : W * (K + 1) <= Y * n).
    { assert (W * Z.succ Fl * n <= Y * n)
        by (apply Z.mul_le_mono_nonneg_r; lia).
      assert (W * (K + 1) <= W * Z.succ Fl * n).
      { replace (W * Z.succ Fl * n) with (W * (Z.succ Fl * n)) by ring.
        apply Z.mul_le_mono_nonneg_l; lia. }
      lia. }
    assert (E7 : (U - 1) * (U - 1) * (W * (K + 1))
                 <= (U - 1) * (U - 1) * (Y * n))
      by (apply Z.mul_le_mono_nonneg_l; [unfold U|]; lia).
    assert (E8 : W * ((U - 1) * (U - 1) * (K + 1)) <= W * (U * U * K))
      by lia.
    apply Z.mul_le_mono_pos_l in E8; [|exact HW].
    unfold U in E8. lia.
Qed.

End Binary64.

(* ================================================================= *)
(** ** The proportional split *)

Module SplitFacts.
Import Py PyFacts Scanner Reporter Binary64.

Lemma of_int_zero : PyFloat.of_int 0 = Ok (S754_zero false).
Proof. reflexivity. Qed.

(** Below [2 ^ 51] for [S * c], the split of a class is the integer
    quotient or one less. *)
Lemma proportional_size_near (S c n : Z) :
  0 <= S -> 0 < c <= n -> n < 2 ^ 64 -> S * c <= 2 ^ 51 ->
  exists z, proportional_size S c n = Ok z
            /\ S * c / n - 1 <= z <= S * c / n.
Proof.
  intros HS Hc Hn HK.
  destruct (int_truediv_near c n Hc Hn)
    as (mp & ep & Hdiv & Hmp & Hep & Hhalf & _).
  unfold proportional_size. rewrite Hdiv. cbn [bind]. unfold PyFloat.int_mul.
  destruct (Z.eq_dec S 0) as [->|HS0].
  - rewrite of_int_zero. cbn [bind PyFloat.mul SFmul PyFloat.to_int].
    exists 0. split; [reflexivity|].
    rewrite Z.mul_0_l, Z.div_0_l by lia. lia.
  - assert (HS53 : 0 < S < 2 ^ 53) by nia.
    destruct (of_int_exact S HS53) as (mF & eF & Hof & HmF & HeF & HSF).
    rewrite Hof. cbn [bind].
    destruct (mul_near mF mp eF ep HmF Hmp ltac:(lia))
      as (my & ey & Hmul & Hmy & Ht & Hprod & _).
    rewrite Hmul.
    rewrite (to_int_div my ey (- (eF + ep))) by lia.
    eexists. split; [reflexivity|].
    replace (- (eF + ep) + ey) with (ey - (eF + ep)) by lia.
    replace (2 ^ (- (eF + ep))) with (2 ^ (- ep) * 2 ^ (- eF))
      by pow2_split.
    rewrite HSF in Hprod.
    apply (two_roundings S c n (Zpos mp) (2 ^ (- ep)) (2 ^ (- eF))
             (Zpos my) (2 ^ (ey - (eF + ep))));
      try lia; try pow2_pos.
Qed.

(** A bucket with one class keeps its whole size. *)
Lemma proportional_size_whole (S n : Z) :
  0 <= S < 2 ^ 53 -> 0 < n < 2 ^ 64 ->
  proportional_size S n n = Ok S.
Proof.
  intros HS Hn.
  destruct (int_truediv_near n n ltac:(lia) ltac:(lia))
    as (mp & ep & Hdiv & Hmp & _ & _ & Hone).
  destruct (Hone eq_refl) as [Hm2 ->].
  unfold proportional_size. rewrite Hdiv. cbn [bind]. unfold PyFloat.int_mul.
  destruct (Z.eq_dec S 0) as [->|HS0]; [reflexivity|].
  destruct (of_int_exact S ltac:(lia)) as (mF & eF & Hof & HmF & HeF & HSF).
  rewrite Hof. cbn [bind].
  destruct (mul_near mF mp eF (-52) HmF Hmp ltac:(lia))
    as (my & ey & Hmul & _ & _ & _ & Hex).
  destruct (Hex Hm2) as [-> ->].
  rewrite Hmul, (to_int_div mF (eF + -52 + 52) (- eF)) by lia.
  replace (- eF + (eF + -52 + 52)) with 0 by lia.
  rewrite HSF, Z.pow_0_r, Z.mul_1_r, Z.div_mul; [reflexivity|].
  apply Z.pow_nonzero; lia.
Qed.

(** *** Sums of quotients *)

Lemma div_add_le (a b n : Z) : 0 < n -> a / n + b / n <= (a + b) / n.
Proof.
  intros Hn. apply Z.div_le_lower_bound; [exact Hn|].
  pose proof (Z.mul_div_le a n Hn). pose proof (Z.mul_div_le b n Hn). lia.
Qed.

Lemma sum_div_le (S n : Z) (cs : list Z) :
  0 < n -> sum (map (fun c => S * c / n) cs) <= S * sum cs / n.
Proof.
  intros Hn. induction cs as [|c cs IH]; simpl.
  - unfold sum. simpl. now rewrite Z.mul_0_r, Z.div_0_l by lia.
  - rewrite !sum_cons, Z.mul_add_distr_l.
    pose proof (div_add_le (S * c) (S * sum cs) n Hn). lia.
Qed.

Lemma In_le_sum (x : Z) (xs : list Z) :
  Forall (fun v => 0 < v) xs -> In x xs -> x <= sum xs.
Proof.
  induction 1 as [|y ys Hy Hys IH]; intros Hin; [contradiction|].
  rewrite sum_cons. pose proof (sum_nonneg ys Hys).
  destruct Hin as [->|Hin]; [lia|]. specialize (IH Hin). lia.
Qed.

(** *** The loop over the classes of one bucket *)

Lemma set_fresh {V : Type} (d : dict V) (k : string) (v : V) :
  get d k = None -> set d k v = (d ++ [(k, v)])%list.
Proof.
  induction d as [|[k' v'] d IH]; simpl; intros H.
  - reflexivity.
  - destruct (String.eqb k' k); [discriminate|]. now rewrite IH.
Qed.

Lemma iadd_fresh (d : dict Z) (k : string) (n : Z) :
  ~ In k (keys d) -> iadd d k n = (d ++ [(k, n)])%list.
Proof.
  intros H. apply get_None_keys in H. unfold iadd. rewrite H.
  now rewrite set_fresh.
Qed.

(** The split of one class: what [distribute] adds for the pair
    [(sc, count)]. *)
Definition split_of (bucket_size bucket_objects : Z) (item size : string * Z)
  : Prop :=
  fst size = fst item
  /\ proportional_size bucket_size (snd item) bucket_objects = Ok (snd size).

(** From dictionaries that hold none of the bucket's classes, the loop
    appends one entry a class, in the order of the histogram. *)
Lemma distribute_fresh (bucket_size bucket_objects : Z)
    (items : list (string * Z)) (o s : dict Z) :
  NoDup (keys items) ->
  (forall k, In k (keys items) -> ~ In k (keys o) /\ ~ In k (keys s)) ->
  Forall (fun item =>
            exists z, proportional_size bucket_size (snd item) bucket_objects
                      = Ok z) items ->
  exists sizes,
    distribute items bucket_size bucket_objects o s
    = Ok ((o ++ items)%list, (s ++ sizes)%list)
    /\ Forall2 (split_of bucket_size bucket_objects) items sizes.
Proof.
  revert o s. induction items as [|[sc count] items IH];
    intros o s Hnd Hfresh Hall.
  - exists []. simpl. now rewrite !app_nil_r.
  - cbn [keys map fst] in Hnd. inversion Hnd as [|? ? Hsc Hnd']; subst.
    inversion Hall as [|? ? [z Hz] Hall']; subst. cbn [snd] in Hz.
    destruct (Hfresh sc (or_introl eq_refl)) as [Ho Hs].
    cbn [distribute]. rewrite Hz. cbn [bind].
    rewrite !iadd_fresh by assumption.
    destruct (IH (o ++ [(sc, count)])%list (s ++ [(sc, z)])%list Hnd')
      as (sizes & Hd & Hf2).
    + intros k Hk.
      destruct (Hfresh k (or_intror Hk)) as [Hko Hks].
      unfold keys in *. rewrite !map_app, !in_app_iff. simpl.
      assert (sc <> k) by (intros ->; contradiction).
      tauto.
    + exact Hall'.
    + exists ((sc, z) :: sizes).
      rewrite Hd, <- !app_assoc. split; [reflexivity|].
      constructor; [split; [reflexivity | exact Hz] | exact Hf2].
Qed.

End SplitFacts.

(* ================================================================= *)
(** ** The proportional split beyond the exact range *)

Module SplitWide.
Import Py PyFacts Scanner Reporter Binary64 SplitFacts.

(** *** Relative error of the two roundings *)

(** Half a unit in the last place of a 53-bit mantissa is at most
    [2 ^ -53] of the value. *)
Lemma half_ulp_upper (X W U : Z) :
  2 * X - U <= 2 * W -> 2 ^ 53 * U <= 2 * X ->
  X * (2 ^ 53 - 1) <= 2 ^ 53 * W.
Proof. lia. Qed.

Lemma half_ulp_lower (X W U : Z) :
  2 * W <= 2 * X + U -> 2 ^ 53 * U <= 2 * X ->
  2 ^ 53 * W <= X * (2 ^ 53 + 1).
Proof. lia. Qed.

Lemma mantissa_ulp (m U : Z) :
  2 ^ 52 <= m -> 0 <= U -> 2 ^ 53 * U <= 2 * (m * U).
Proof. intros Hm HU. nia. Qed.

(** The truncated product, with the two relative errors, from above. *)
Lemma chain_upper (z A F X S mp n c K P : Z) :
  0 < A -> 0 < F -> 0 <= K -> 0 <= P -> 0 <= n -> 0 <= S ->
  z * (A * F) <= X ->
  X * K <= P * (S * F * mp) ->
  mp * n * K <= P * (c * A) ->
  z * n * (K * K) <= P * P * (S * c).
Proof.
  intros HA HF HK HP Hn HS Hz Hx Hp.
  assert (E1 : z * A * K <= P * S * mp).
  { apply (Z.mul_le_mono_pos_r _ _ F HF).
    apply Z.le_trans with (X * K).
    - replace (z * A * K * F) with (z * (A * F) * K) by ring.
      now apply Z.mul_le_mono_nonneg_r.
    - replace (P * S * mp * F) with (P * (S * F * mp)) by ring. exact Hx. }
  apply (Z.mul_le_mono_pos_r _ _ A HA).
  apply Z.le_trans with (P * S * mp * (n * K)).
  - replace (z * n * (K * K) * A) with (z * A * K * (n * K)) by ring.
    apply Z.mul_le_mono_nonneg_r; [|exact E1].
    now apply Z.mul_nonneg_nonneg.
  - replace (P * S * mp * (n * K)) with (P * S * (mp * n * K)) by ring.
    replace (P * P * (S * c) * A) with (P * S * (P * (c * A))) by ring.
    apply Z.mul_le_mono_nonneg_l; [|exact Hp].
    now apply Z.mul_nonneg_nonneg.
Qed.

(** The same from below. *)
Lemma chain_lower (z A F X S mp n c Q P : Z) :
  0 < A -> 0 < F -> 0 < Q -> 0 <= P -> 0 < n -> 0 <= S ->
  X < (z + 1) * (A * F) ->
  P * (S * F * mp) <= X * Q ->
  P * (c * A) <= mp * n * Q ->
  P * P * (S * c) < (z + 1) * n * (Q * Q).
Proof.
  intros HA HF HQ HP Hn HS Hz Hx Hp.
  assert (E1 : P * S * mp < (z + 1) * A * Q).
  { apply (Z.mul_lt_mono_pos_r F _ _ HF).
    apply Z.le_lt_trans with (X * Q).
    - replace (P * S * mp * F) with (P * (S * F * mp)) by ring. exact Hx.
    - replace ((z + 1) * A * Q * F) with ((z + 1) * (A * F) * Q) by ring.
      now apply Z.mul_lt_mono_pos_r. }
  apply (Z.mul_lt_mono_pos_r A _ _ HA).
  apply Z.le_lt_trans with (P * S * mp * (n * Q)).
  - replace (P * P * (S * c) * A) with (P * S * (P * (c * A))) by ring.
    replace (P * S * mp * (n * Q)) with (P * S * (mp * n * Q)) by ring.
    apply Z.mul_le_mono_nonneg_l; [|exact Hp].
    now apply Z.mul_nonneg_nonneg.
  - replace ((z + 1) * n * (Q * Q) * A)
      with ((z + 1) * A * Q * (n * Q)) by ring.
    apply Z.mul_lt_mono_pos_r; [|exact E1].
    now apply Z.mul_pos_pos.
Qed.

(** Below [2 ^ 53] for the size and [2 ^ 64] for the count, the split
    of a class returns, is not negative, and is the exact share up to
    the relative error of two roundings. *)
Lemma proportional_size_scaled (S c n : Z) :
  0 <= S < 2 ^ 53 -> 0 < c <= n -> n < 2 ^ 64 ->
  exists z,
    proportional_size S c n = Ok z
    /\ 0 <= z
    /\ z * n * ((2 ^ 53 - 1) * (2 ^ 53 - 1)) <= 2 ^ 53 * 2 ^ 53 * (S * c)
    /\ 2 ^ 53 * 2 ^ 53 * (S * c)
       < (z + 1) * n * ((2 ^ 53 + 1) * (2 ^ 53 + 1)).
Proof.
  intros HS Hc Hn.
  destruct (int_truediv_near c n Hc Hn)
    as (mp & ep & Hdiv & Hmp & Hep & Hhalf & _).
  unfold proportional_size. rewrite Hdiv. cbn [bind]. unfold PyFloat.int_mul.
  destruct (Z.eq_dec S 0) as [->|HS0].
  - rewrite of_int_zero. cbn [bind PyFloat.mul SFmul PyFloat.to_int].
    exists 0. split; [reflexivity|]. split; [lia|].
    rewrite !Z.mul_0_l, !Z.mul_0_r. split; [lia|].
    apply Z.mul_pos_pos; lia.
  - destruct (of_int_exact S ltac:(lia)) as (mF & eF & Hof & HmF & HeF & HSF).
    rewrite Hof. cbn [bind].
    destruct (mul_near mF mp eF ep HmF Hmp ltac:(lia))
      as (my & ey & Hmul & Hmy & Ht & Hprod & _).
    rewrite Hmul.
    rewrite (to_int_div my ey (- (eF + ep))) by lia.
    replace (- (eF + ep) + ey) with (ey - (eF + ep)) by lia.
    replace (2 ^ (- (eF + ep))) with (2 ^ (- ep) * 2 ^ (- eF))
      by pow2_split.
    set (A := 2 ^ (- ep)) in *. set (F := 2 ^ (- eF)) in *.
    set (T := 2 ^ (ey - (eF + ep))) in *.
    assert (HA : 0 < A) by (unfold A; pow2_pos).
    assert (HF : 0 < F) by (unfold F; pow2_pos).
    assert (HT : 0 < T) by (unfold T; pow2_pos).
    rewrite HSF in Hprod.
    pose proof (mantissa_ulp (Zpos mp) n (proj1 Hmp) ltac:(lia)) as Hun.
    pose proof (mantissa_ulp (Zpos my) T (proj1 Hmy) ltac:(lia)) as HuT.
    assert (Hp1 : Zpos mp * n * (2 ^ 53 - 1) <= 2 ^ 53 * (c * A))
      by (apply (half_ulp_upper _ _ n); lia).
    assert (Hp2 : 2 ^ 53 * (c * A) <= Zpos mp * n * (2 ^ 53 + 1))
      by (apply (half_ulp_lower _ _ n); lia).
    assert (Hx1 : Zpos my * T * (2 ^ 53 - 1) <= 2 ^ 53 * (S * F * Zpos mp))
      by (apply (half_ulp_upper _ _ T); lia).
    assert (Hx2 : 2 ^ 53 * (S * F * Zpos mp) <= Zpos my * T * (2 ^ 53 + 1))
      by (apply (half_ulp_lower _ _ T); lia).
    set (X := Zpos my * T) in *.
    assert (HAF : 0 < A * F) by (now apply Z.mul_pos_pos).
    assert (HX : 0 <= X) by (unfold X; lia).
    pose proof (Z.mul_div_le X (A * F) HAF) as Hz1.
    pose proof (Z.mul_succ_div_gt X (A * F) HAF) as Hz2.
    set (z := X / (A * F)) in *.
    exists z. split; [reflexivity|].
    split; [unfold z; now apply Z.div_pos|].
    split.
    + apply (chain_upper z A F X S (Zpos mp) n c); try lia.
    + apply (chain_lower z A F X S (Zpos mp) n c); try lia.
Qed.

(** Below [2 ^ 52] the two relative errors stay under one: the split is
    within one of the whole share, and never above the size. *)
Lemma split_within_one (S c n z : Z) :
  0 <= S < 2 ^ 52 -> 0 < c <= n -> 0 <= z ->
  z * n * ((2 ^ 53 - 1) * (2 ^ 53 - 1)) <= 2 ^ 53 * 2 ^ 53 * (S * c) ->
  2 ^ 53 * 2 ^ 53 * (S * c) < (z + 1) * n * ((2 ^ 53 + 1) * (2 ^ 53 + 1)) ->
  S * c / n - 1 <= z <= S * c / n + 1 /\ z <= S.
Proof.
  intros HS Hc Hz Hup Hlo.
  assert (Hn : 0 < n) by lia.
  pose proof (Z.mul_div_le (S * c) n Hn) as Hq1.
  pose proof (Z.mul_succ_div_gt (S * c) n Hn) as Hq2.
  set (q := S * c / n) in *.
  assert (HSc : S * c <= S * n) by (apply Z.mul_le_mono_nonneg_l; lia).
  assert (Hq0 : 0 <= q) by (apply Z.div_pos; nia).
  assert (HqS : q <= S).
  { apply Z.div_le_upper_bound; [exact Hn|]. lia. }
  set (K2 := (2 ^ 53 - 1) * (2 ^ 53 - 1)) in *.
  set (Q2 := (2 ^ 53 + 1) * (2 ^ 53 + 1)) in *.
  set (P2 := 2 ^ 53 * 2 ^ 53) in *.
  assert (HzS : z * K2 <= P2 * S).
  { apply (Z.mul_le_mono_pos_r _ _ n Hn).
    replace (z * K2 * n) with (z * n * K2) by ring.
    apply Z.le_trans with (P2 * (S * c)); [exact Hup|].
    replace (P2 * S * n) with (P2 * (S * n)) by ring.
    apply Z.mul_le_mono_nonneg_l; [unfold P2; lia | exact HSc]. }
  assert (Hzq : z * K2 < P2 * (q + 1)).
  { apply (Z.mul_lt_mono_pos_r n _ _ Hn).
    replace (z * K2 * n) with (z * n * K2) by ring.
    apply Z.le_lt_trans with (P2 * (S * c)); [exact Hup|].
    replace (P2 * (q + 1) * n) with (P2 * (n * Z.succ q))
      by (unfold Z.succ; ring).
    apply Z.mul_lt_mono_pos_l; [unfold P2; lia | exact Hq2]. }
  assert (Hqz : P2 * q < (z + 1) * Q2).
  { apply (Z.mul_lt_mono_pos_r n _ _ Hn).
    apply Z.le_lt_trans with (P2 * (S * c)).
    - replace (P2 * q * n) with (P2 * (n * q)) by ring.
      apply Z.mul_le_mono_nonneg_l; [unfold P2; lia | exact Hq1].
    - replace ((z + 1) * Q2 * n) with ((z + 1) * n * Q2) by ring.
      exact Hlo. }
  unfold K2, Q2, P2 in *. lia.
Qed.

(** *** The classes of one bucket, whatever its size *)

(** When the loop returns from dictionaries that hold none of the
    bucket's classes, it has appended one entry a class, each the split
    of that class. *)
Lemma distribute_fresh_returned (bucket_size bucket_objects : Z)
    (items : list (string * Z)) (o s o' s' : dict Z) :
  NoDup (keys items) ->
  (forall k, In k (keys items) -> ~ In k (keys o) /\ ~ In k (keys s)) ->
  distribute items bucket_size bucket_objects o s = Ok (o', s') ->
  exists sizes,
    o' = (o ++ items)%list /\ s' = (s ++ sizes)%list
    /\ Forall2 (split_of bucket_size bucket_objects) items sizes.
Proof.
  revert o s. induction items as [|[sc count] items IH];
    intros o s Hnd Hfresh Hd.
  - exists []. cbn [distribute] in Hd. inversion Hd; subst.
    now rewrite !app_nil_r.
  - cbn [keys map fst] in Hnd. inversion Hnd as [|? ? Hsc Hnd']; subst.
    destruct (Hfresh sc (or_introl eq_refl)) as [Ho Hs].
    cbn [distribute] in Hd.
    destruct (proportional_size bucket_size count bucket_objects)
      as [z|e] eqn:Hz; cbn [bind] in Hd; [|discriminate].
    rewrite !iadd_fresh in Hd by assumption.
    destruct (IH (o ++ [(sc, count)])%list (s ++ [(sc, z)])%list Hnd')
      as (sizes & -> & -> & Hf2).
    + intros k Hk.
      destruct (Hfresh k (or_intror Hk)) as [Hko Hks].
      unfold keys in *. rewrite !map_app, !in_app_iff. simpl.
      assert (sc <> k) by (intros ->; contradiction).
      tauto.
    + exact Hd.
    + exists ((sc, z) :: sizes). rewrite <- !app_assoc.
      split; [reflexivity|]. split; [reflexivity|].
      constructor; [split; [reflexivity | exact Hz] | exact Hf2].
Qed.

(** The loop fails only where the split of a class fails. *)
Lemma distribute_raises (bucket_size bucket_objects : Z)
    (items : list (string * Z)) (o s : dict Z) (e : exn) :
  distribute items bucket_size bucket_objects o s = Raise e ->
  Exists (fun item =>
            proportional_size bucket_size (snd item) bucket_objects
            = Raise e) items.
Proof.
  revert o s. induction items as [|[sc count] items IH]; intros o s Hd.
  - discriminate.
  - cbn [distribute] in Hd.
    destruct (proportional_size bucket_size count bucket_objects)
      as [z|e'] eqn:Hz; cbn [bind] in Hd.
    + right. eapply IH; eauto.
    + left. cbn [snd]. congruence.
Qed.

(** The sum of the splits, scaled. *)
Lemma splits_sum_scaled (S n K2 P2 : Z) (items sizes : list (string * Z)) :
  Forall2 (fun item size =>
             snd size * n * K2 <= P2 * (S * snd item)) items sizes ->
  sum (values sizes) * n * K2 <= P2 * (S * sum (values items)).
Proof.
  induction 1 as [|item size items sizes H _ IH].
  - cbn [values map]. change (sum []) with 0. lia.
  - cbn [values map]. rewrite !sum_cons. unfold values in IH. lia.
Qed.

End SplitWide.

(* ================================================================= *)
(** ** More on the scanner *)

Module ScannerMore.
Import Py PyFacts Scanner ScannerFacts.

(** *** What a page loop reads *)












(** *** The entries, in listing order *)







(** *** How [get_s3_summary] ends, case by case *)








End ScannerMore.

(* ================================================================= *)
(** ** More on [format_size]: the units and the shown value *)

Module FormatMore.
Import Py Reporter Binary64 FormatFacts.

(** *** Dividing by [1024.0] and comparing with it *)






(** *** One decimal, rounded half to even *)







(** *** The loop below [2 ^ 53] *)



End FormatMore.

(* ================================================================= *)
(** ** Durations: [format_duration] *)

Module Progress.
Import Py Reporter.



End Progress.

Module ProgressFacts.
Import Py Reporter Progress.


End ProgressFacts.

(* ================================================================= *)
(** ** The report within the range of exact floats *)

Module ReportMore.
Import Py PyFacts Scanner Reporter ScannerFacts ReporterFacts.
Import FormatFacts Binary64 SplitFacts SplitWide ScannerMore FormatMore.

(** *** Dictionaries of sizes *)






(** *** Quotients that return *)


(** *** The first pass, within range *)










(** *** The distribution rows and lines *)




(** *** The two reports *)




End ReportMore.

(* ================================================================= *)
(** ** The classes of the distribution *)

Module ClassesFacts.
Import Py PyFacts Scanner Reporter ReporterFacts ScannerMore.

(** *** [sorted] sorts *)







(** *** The keys the first pass leaves *)





(** *** The rows of the distribution *)




End ClassesFacts.

(* ================================================================= *)
(** ** Sample runs *)

Module Samples.
Import Py Scanner Reporter.

Definition object (size : Z) (class : string) : s3_object :=
  {| Size := size; StorageClass := Some class |}.

(** Four objects, one of them without a storage class. *)
Definition logs : s3_bucket :=
  {| Name := "logs";
     listing := [ Page (Some [object 1000 "STANDARD"; object 1000 "GLACIER"]);
                  Page None;
                  Page (Some [object 1500 "STANDARD";
                              {| Size := 500; StorageClass := None |}]) ] |}.

(** One object listed, then access denied. *)
Definition shared : s3_bucket :=
  {| Name := "shared";
     listing := [ Page (Some [object 10 "STANDARD_IA"]);
                  PageRaises ClientError;
                  Page (Some [object 20 "STANDARD_IA"]) ] |}.

(** Access denied on the first page. *)
Definition locked : s3_bucket :=
  {| Name := "locked"; listing := [PageRaises ClientError] |}.

(** The deadline falls while the second page is fetched. *)
Definition slow : s3_bucket :=
  {| Name := "slow";
     listing := [ Page (Some [object 7 "STANDARD"]);
                  PageRaises TimeoutException ] |}.

Definition media : s3_bucket :=
  {| Name := "media"; listing := [Page (Some [object 4096 "STANDARD"])] |}.

Definition logs_entry : bucket_summary :=
  {| Bucket_Name := "logs"; Object_Count := 4; Total_Size_Bytes := 4000;
     Storage_Classes := [("STANDARD", 3); ("GLACIER", 1)] |}.

Definition shared_entry : bucket_summary :=
  {| Bucket_Name := "shared"; Object_Count := 1; Total_Size_Bytes := 10;
     Storage_Classes := [("STANDARD_IA", 1)] |}.

Definition media_entry : bucket_summary :=
  {| Bucket_Name := "media"; Object_Count := 1; Total_Size_Bytes := 4096;
     Storage_Classes := [("STANDARD", 1)] |}.

Definition account : option string := Some "123456789012".

(** Five buckets; the deadline falls in the third. *)
Definition five_buckets : service :=
  {| sts := Identity account;
     list_buckets := Ok [logs; media; slow; shared; locked] |}.

(** Access errors only. *)
Definition denied_twice : service :=
  {| sts := Identity account;
     list_buckets := Ok [logs; shared; locked; media] |}.

(** An empty page, then access denied. *)
Definition vault : s3_bucket :=
  {| Name := "vault"; listing := [Page None; PageRaises ClientError] |}.

(** Every bucket denied before any object is listed. *)
Definition all_denied : service :=
  {| sts := Identity account; list_buckets := Ok [locked; vault] |}.

(** No usable credentials. *)
Definition no_credentials : service :=
  {| sts := StsRaises NoCredentialsError; list_buckets := Ok [logs] |}.

(** The deadline falls before the bucket list is known. *)
Definition slow_listing : service :=
  {| sts := Identity account; list_buckets := Raise TimeoutException |}.

Definition stamp : string := "2026-01-01 00:00:00".

Definition entry (name : string) (count : Z) : bucket_summary :=
  {| Bucket_Name := name; Object_Count := count; Total_Size_Bytes := 0;
     Storage_Classes := [] |}.

(** Ten objects of nine bytes each, seven in one class and three in
    another. *)
Definition mixed : bucket_summary :=
  {| Bucket_Name := "mixed"; Object_Count := 10; Total_Size_Bytes := 90;
     Storage_Classes := [("STANDARD", 7); ("GLACIER", 3)] |}.

(** One class, and a size that binary64 cannot hold exactly. *)
Definition archive : bucket_summary :=
  {| Bucket_Name := "archive"; Object_Count := 1;
     Total_Size_Bytes := 2 ^ 53 + 3;
     Storage_Classes := [("DEEP_ARCHIVE", 1)] |}.

(** Ten objects, each in a class of its own, and a size just below
    [2 ^ 53]. *)
Definition spread : bucket_summary :=
  {| Bucket_Name := "spread"; Object_Count := 10;
     Total_Size_Bytes := 2 ^ 53 - 3;
     Storage_Classes :=
       [("C0", 1); ("C1", 1); ("C2", 1); ("C3", 1); ("C4", 1);
        ("C5", 1); ("C6", 1); ("C7", 1); ("C8", 1); ("C9", 1)] |}.
End Samples.

(* ================================================================= *)
(** ** The scanner's claims *)

Import Py PyFacts Scanner Reporter ScannerFacts ReporterFacts FormatFacts.
Import SplitFacts SplitWide.

(** C9.  Every entry the scanner returns, partial entries kept after an
    access error included, has a histogram whose values add up to its
    object count and are all positive; an entry with no object has an
    empty histogram. *)
Theorem scanner_entries_well_formed (w : service)
    (records : list bucket_summary) (account : option string) :
  get_s3_summary w = Ok (records, account) ->
  Forall (fun r =>
            sum (values (Storage_Classes r)) = Object_Count r
            /\ Forall (fun v => 0 < v) (values (Storage_Classes r))
            /\ (Object_Count r = 0 -> Storage_Classes r = []))
         records.
Proof. apply get_s3_summary_well_formed. Qed.

Lemma scanner_entries_well_formed_witness :
  get_s3_summary Samples.denied_twice
  = Ok ([Samples.logs_entry; Samples.shared_entry; Samples.media_entry],
        Samples.account)
  /\ Forall (fun r =>
               sum (values (Storage_Classes r)) = Object_Count r
               /\ Forall (fun v => 0 < v) (values (Storage_Classes r))
               /\ (Object_Count r = 0 -> Storage_Classes r = []))
            [Samples.logs_entry; Samples.shared_entry; Samples.media_entry].
Proof.
  split; [reflexivity|].
  apply (scanner_entries_well_formed Samples.denied_twice _ Samples.account).
  reflexivity.
Defined.

(** C3.  When a bucket's listing raises an access error after some pages,
    the pages after the error are never read, the buckets that follow are
    scanned as usual, and the bucket's entry, holding the counts of the
    pages read, is in the result exactly when at least one object was
    counted. *)
Theorem access_error_partial_or_dropped (Account : option string)
    (pre post : list s3_bucket) (bucket : s3_bucket)
    (pages : list (option (list s3_object))) (later : list page_event) :
  listing bucket = (map Page pages ++ PageRaises ClientError :: later)%list ->
  Forall (fun b => completes b = true) pre ->
  Forall (fun b => completes b = true) post ->
  let c := fold_left count_page pages counters0 in
  let partial := if object_count c =? 0 then [] else [entry_of bucket c] in
  object_count c = Z.of_nat (List.length (objects_of pages))
  /\ get_s3_summary {| sts := Identity Account;
                       list_buckets := Ok (pre ++ bucket :: post)%list |}
     = Ok (match (records_of pre ++ partial ++ records_of post)%list with
           | [] => ([], None)
           | records => (records, Some (account_of Account))
           end).
Proof.
  intros Hl Hpre Hpost c partial.
  assert (Hp : paginate (listing bucket) counters0 = (c, Some ClientError)).
  { rewrite Hl. apply paginate_raises. }
  split.
  { unfold c. now rewrite object_count_pages. }
  assert (Hb : completes bucket = true).
  { unfold completes. now rewrite Hp. }
  assert (Hk : kept bucket = partial).
  { unfold kept. now rewrite Hp. }
  rewrite get_s3_summary_scan.
  rewrite records_of_completes
    by (apply Forall_app; split; [exact Hpre | now constructor]).
  rewrite flat_map_app. cbn [flat_map].
  rewrite Hk, <- !records_of_flat_map by assumption.
  reflexivity.
Qed.

Lemma access_error_partial_or_dropped_witness :
  get_s3_summary Samples.denied_twice
  = Ok ([Samples.logs_entry; Samples.shared_entry; Samples.media_entry],
        Samples.account)
  /\ get_s3_summary {| sts := Identity None;
                       list_buckets := Ok [Samples.locked; Samples.media] |}
     = Ok ([Samples.media_entry], Some "N/A").
Proof.
  split.
  - refine (proj2 (access_error_partial_or_dropped Samples.account
              [Samples.logs] [Samples.locked; Samples.media] Samples.shared
              [Some [Samples.object 10 "STANDARD_IA"]]
              [Page (Some [Samples.object 20 "STANDARD_IA"])] _ _ _)).
    + reflexivity.
    + repeat constructor.
    + repeat constructor.
  - refine (proj2 (access_error_partial_or_dropped None
              [] [Samples.media] Samples.locked [] [] _ _ _)).
    + reflexivity.
    + constructor.
    + repeat constructor.
Defined.

(** When the deadline falls while a bucket is being listed, the scanner
    returns exactly the entries of the buckets before it, without the
    counts of the bucket in progress; if there is no such entry it
    returns the empty list and no account id. *)
Theorem deadline_keeps_completed_buckets (Account : option string)
    (pre post : list s3_bucket) (bucket : s3_bucket)
    (pages : list (option (list s3_object))) (later : list page_event) :
  listing bucket
  = (map Page pages ++ PageRaises TimeoutException :: later)%list ->
  Forall (fun b => completes b = true) pre ->
  get_s3_summary {| sts := Identity Account;
                    list_buckets := Ok (pre ++ bucket :: post)%list |}
  = Ok (match records_of pre with
        | [] => ([], None)
        | records => (records, Some (account_of Account))
        end).
Proof.
  intros Hl Hpre.
  pose proof (paginate_raises pages TimeoutException later counters0) as Hp.
  rewrite <- Hl in Hp.
  rewrite get_s3_summary_scan, scan_buckets_app by exact Hpre.
  rewrite (scan_buckets_abort _ _ _ _ _ _ Hp eq_refl).
  cbn [is_Exception app]. now rewrite records_of_flat_map.
Qed.

(** The deadline falls after two of five buckets: exactly their two
    entries are returned. *)
Lemma deadline_keeps_completed_buckets_witness :
  get_s3_summary Samples.five_buckets
  = Ok ([Samples.logs_entry; Samples.media_entry], Samples.account)
  /\ get_s3_summary {| sts := Identity Samples.account;
                       list_buckets := Ok [Samples.slow; Samples.media] |}
     = Ok ([], None).
Proof.
  split.
  - refine (deadline_keeps_completed_buckets Samples.account
              [Samples.logs; Samples.media] [Samples.shared; Samples.locked]
              Samples.slow [Some [Samples.object 7 "STANDARD"]] [] _ _).
    + reflexivity.
    + repeat constructor.
  - refine (deadline_keeps_completed_buckets Samples.account
              [] [Samples.media] Samples.slow
              [Some [Samples.object 7 "STANDARD"]] [] _ _).
    + reflexivity.
    + constructor.
Defined.

(** C4.  The alarm is armed before the session is built and the buckets
    are listed.  When the deadline falls there, no bucket is complete,
    yet the function does not return the empty list and no account id:
    the handler's warning reads [total_buckets], which is not bound
    yet, so the function raises [UnboundLocalError], and the program
    exits with code 1 without a report. *)
Lemma deadline_before_listing :
  get_s3_summary Samples.slow_listing = Raise UnboundLocalError
  /\ get_s3_summary {| sts := StsRaises TimeoutException;
                       list_buckets := Ok [Samples.logs] |}
     = Raise UnboundLocalError
  /\ get_s3_summary Samples.slow_listing <> Ok ([], None)
  /\ main Samples.stamp Samples.slow_listing
     = {| exit_code := 1; report := None;
          console := ["Starting S3 bucket summary..."] |}.
Proof.
  split; [reflexivity|]. split; [reflexivity|].
  split; [discriminate | reflexivity].
Qed.

(* ================================================================= *)
(** ** The reporter's claims *)

(** C7.  The largest bucket of the console summary is an entry of highest
    object count, and among those the first one of the list; with the
    counts 5, 20, 20, 3 it is the entry at index 1. *)
Theorem largest_bucket_first_maximum :
  (forall summary : list bucket_summary,
      summary <> [] ->
      exists i best,
        max_by_object_count summary = Ok best
        /\ nth_error summary i = Some best
        /\ (forall r, In r summary -> Object_Count r <= Object_Count best)
        /\ (forall j r, (j < i)%nat -> nth_error summary j = Some r ->
                        Object_Count r < Object_Count best))
  /\ (forall r0 r1 r2 r3 : bucket_summary,
         Object_Count r0 = 5 -> Object_Count r1 = 20 ->
         Object_Count r2 = 20 -> Object_Count r3 = 3 ->
         max_by_object_count [r0; r1; r2; r3] = Ok r1).
Proof.
  split.
  - intros [|x rest] Hne; [contradiction|].
    destruct (max_from_first rest [x] x 0 eq_refl) as (i & Hi & Hle & Hlt).
    + intros r [<-|[]]. lia.
    + intros j r Hj. lia.
    + exists i, (max_from x rest). simpl in *. auto.
  - intros r0 r1 r2 r3 H0 H1 H2 H3.
    unfold max_by_object_count. cbn [max_from].
    rewrite ?H0, ?H1, ?H2, ?H3. reflexivity.
Qed.

Lemma largest_bucket_first_maximum_witness :
  max_by_object_count
    [Samples.entry "b0" 5; Samples.entry "b1" 20;
     Samples.entry "b2" 20; Samples.entry "b3" 3]
  = Ok (Samples.entry "b1" 20).
Proof.
  apply (proj2 largest_bucket_first_maximum); reflexivity.
Defined.

(** C8, as the code has it.  Sizes are shown in base-1024 units from B to
    TB: whole bytes below 1024, one decimal otherwise; 0 is ["0 B"], 1536
    is ["1.5 KB"], 1073741824 is ["1.0 GB"].  The loop returns at TB
    whatever the size, so 1024^5 bytes are ["1,024.0 TB"] and every result
    ends with one of the five units. *)
Theorem format_size_units_up_to_TB :
  format_size 0 = Ok "0 B"
  /\ format_size 1536 = Ok "1.5 KB"
  /\ format_size 1073741824 = Ok "1.0 GB"
  /\ format_size (1024 ^ 5) = Ok "1,024.0 TB"
  /\ forall n : Z,
       match format_size n with
       | Ok s =>
           (n < 1024 /\ s = format_int n ++ " B")
           \/ (1024 <= n
               /\ exists y unit,
                    In unit ["KB"; "MB"; "GB"; "TB"]
                    /\ s = PyFloat.format_1f y ++ " " ++ unit)
       | Raise e => 1024 <= n /\ e = OverflowError
       end.
Proof.
  split; [vm_compute; reflexivity|].
  split; [vm_compute; reflexivity|].
  split; [vm_compute; reflexivity|].
  split; [vm_compute; reflexivity|].
  intros n. apply format_size_shape.
Qed.

(** C8, as stated, fails: no input of at least 1024^5 bytes is shown with
    the PB suffix. *)
Lemma format_size_never_PB :
  ~ (exists n : Z, 1024 ^ 5 <= n
                   /\ exists body, format_size n = Ok (body ++ " PB")).
Proof.
  intros (n & _ & body & H).
  destruct (format_size_unit n _ H) as (body' & unit & Hin & E).
  apply (unit_not_PB body' unit Hin).
  exists (body ++ " "). rewrite <- E. symmetry. apply append_assoc.
Qed.

(** C6.  For no entry and no account id the report holds the header, the
    four totals at zero and the distribution heading with no class row
    under it; the console summary shows the same zero totals and no class
    line; the program exits with code 0. *)
Theorem empty_result_report (now : string) :
  write_summary_to_csv now [] None
  = Ok ([ [Text "S3 Bucket Summary Report"];
          [Text "Generated at:"; Text now];
          [Text ""];
          [Text "Detailed Bucket Information"];
          [Text "Bucket Name"; Text "Object Count";
           Text "Total Size (Bytes)"; Text "Storage Classes"];
          [Text ""];
          [Text "Summary"];
          [Text "Total Buckets"; Number 0];
          [Text "Total Objects"; Number 0];
          [Text "Total Size (Bytes)"; Number 0];
          [Text "Total Size (GB)"; Rounded2 (S754_zero false)];
          [Text ""];
          [Text "Storage Class Distribution"] ],
        {| total_buckets := 0; total_objects := 0; total_size := 0;
           storage_class_objects := []; storage_class_sizes := [] |})
  /\ print_console_summary [] None
       (Some {| total_buckets := 0; total_objects := 0; total_size := 0;
                storage_class_objects := []; storage_class_sizes := [] |})
     = Ok [ nl ++ "=== S3 Storage Summary ===";
            "Total Buckets: 0";
            "Total Objects: 0";
            "Total Size: 0 B";
            nl ++ "Storage Class Distribution:";
            "=========================" ]
  /\ forall w : service,
       get_s3_summary w = Ok ([], None) ->
       exit_code (main now w) = 0
       /\ exists file, report (main now w) = Some file.
Proof.
  split; [reflexivity|]. split; [reflexivity|].
  intros w H. unfold main. rewrite H. simpl. eauto.
Qed.

Lemma empty_result_report_witness :
  get_s3_summary {| sts := Identity None; list_buckets := Ok [] |}
  = Ok ([], None)
  /\ exit_code (main Samples.stamp
                  {| sts := Identity None; list_buckets := Ok [] |}) = 0.
Proof.
  split; [reflexivity|].
  apply (proj2 (proj2 (empty_result_report Samples.stamp))). reflexivity.
Defined.

(** C2, as the code has it.  When the scan returns an empty list, the
    program writes the report and exits with code 0. *)
Theorem empty_result_exits_zero (now : string) (w : service)
    (account : option string) :
  get_s3_summary w = Ok ([], account) ->
  exit_code (main now w) = 0
  /\ exists file, report (main now w) = Some file.
Proof.
  intros H. unfold main. rewrite H.
  destruct account as [[|a s]|]; simpl; eauto.
Qed.

Lemma empty_result_exits_zero_witness :
  get_s3_summary {| sts := Identity Samples.account;
                    list_buckets := Ok [Samples.locked] |}
  = Ok ([], None)
  /\ exit_code (main Samples.stamp
                  {| sts := Identity Samples.account;
                     list_buckets := Ok [Samples.locked] |}) = 0.
Proof.
  split; [reflexivity|].
  refine (proj1 (empty_result_exits_zero Samples.stamp _ None _)).
  reflexivity.
Defined.

(** C2, as stated, fails: when every bucket is denied, and when there are
    no usable credentials, the scan returns the empty list and the exit
    code is 0, not 1. *)
Lemma empty_result_exit_code :
  get_s3_summary Samples.all_denied = Ok ([], None)
  /\ exit_code (main Samples.stamp Samples.all_denied) = 0
  /\ exit_code (main Samples.stamp Samples.all_denied) <> 1
  /\ get_s3_summary Samples.no_credentials = Ok ([], None)
  /\ exit_code (main Samples.stamp Samples.no_credentials) = 0
  /\ exit_code (main Samples.stamp Samples.no_credentials) <> 1.
Proof. repeat split; discriminate. Qed.

(** C10.  Whenever [write_summary_to_csv] returns its dict, the fallback
    of [print_console_summary] computes the same bucket count, the same
    two totals and the same two per-class dictionaries from the same
    list; for a non-empty list the console summary is then the same with
    or without [csv_stats]. *)
Theorem fallback_stats_agree (now : string) (summary : list bucket_summary)
    (account_id : option string) (file : list row) (st : stats) :
  write_summary_to_csv now summary account_id = Ok (file, st) ->
  fallback_stats summary = Ok st
  /\ (summary <> [] ->
      print_console_summary summary account_id None
      = print_console_summary summary account_id (Some st)).
Proof.
  intros H.
  destruct (write_summary_to_csv_stats _ _ _ _ _ H) as (o & s & Hc & ->).
  assert (Hf : fallback_stats summary
               = Ok {| total_buckets := Z.of_nat (List.length summary);
                       total_objects := sum (map Object_Count summary);
                       total_size := sum (map Total_Size_Bytes summary);
                       storage_class_objects := o;
                       storage_class_sizes := s |}).
  { unfold fallback_stats. now rewrite Hc. }
  split; [exact Hf|].
  intros Hne. destruct summary as [|x rest]; [contradiction|].
  unfold print_console_summary. rewrite Hf.
  cbn [bind storage_class_objects storage_class_sizes].
  rewrite (distribution_lines_plain _ o s); [reflexivity|].
  intros sc Hin. apply (proj1 (In_sorted _ _)) in Hin.
  now rewrite <- (collect_keys _ _ _ _ _ Hc eq_refl).
Qed.

Lemma fallback_stats_agree_witness :
  fallback_stats [Samples.logs_entry; Samples.shared_entry]
  = Ok {| total_buckets := 2; total_objects := 5; total_size := 4010;
          storage_class_objects :=
            [("STANDARD", 3); ("GLACIER", 1); ("STANDARD_IA", 1)];
          storage_class_sizes :=
            [("STANDARD", 3000); ("GLACIER", 1000); ("STANDARD_IA", 10)] |}.
Proof.
  refine (proj1 (fallback_stats_agree Samples.stamp
                   [Samples.logs_entry; Samples.shared_entry]
                   Samples.account _ _ _)).
  vm_compute. reflexivity.
Defined.

(** C5.  For every list the scanner returns, the reporter's total of
    objects is the sum of the entries' object counts, and the per-class
    object counts of the distribution add up to that same total. *)
Theorem report_totals_objects (w : service) (summary : list bucket_summary)
    (account : option string) (now : string) (file : list row) (st : stats) :
  get_s3_summary w = Ok (summary, account) ->
  write_summary_to_csv now summary account = Ok (file, st) ->
  total_objects st = sum (map Object_Count summary)
  /\ sum (values (storage_class_objects st)) = total_objects st.
Proof.
  intros Hscan H.
  destruct (write_summary_to_csv_stats _ _ _ _ _ H) as (o & s & Hc & ->).
  cbn [total_objects storage_class_objects].
  split; [reflexivity|].
  rewrite (collect_objects _ _ _ _ _ Hc).
  rewrite class_objects_well_formed
    by (eapply get_s3_summary_well_formed; eauto).
  reflexivity.
Qed.

Lemma report_totals_objects_witness :
  get_s3_summary Samples.denied_twice
  = Ok ([Samples.logs_entry; Samples.shared_entry; Samples.media_entry],
        Samples.account)
  /\ sum (values [("STANDARD", 4); ("GLACIER", 1); ("STANDARD_IA", 1)])
     = sum (map Object_Count
              [Samples.logs_entry; Samples.shared_entry; Samples.media_entry]).
Proof.
  split; [reflexivity|].
  pose proof (report_totals_objects Samples.denied_twice
                [Samples.logs_entry; Samples.shared_entry; Samples.media_entry]
                Samples.account Samples.stamp) as T.
  specialize (T _ _ eq_refl eq_refl).
  destruct T as [T1 T2]. etransitivity; [exact T2 | exact T1].
Defined.


(* ================================================================= *)
(** ** The proportional split's claim *)

(** C1, as the code has it.  For every bucket whose histogram is not
    empty and whose object count is positive, the reporter attributes
    to each class [int(total_size * (count / object_count))], evaluated
    in binary64, and fails only where one of these evaluations fails.
    For positive counts that add up to the object count, a total size
    below [2 ^ 52] and an object count below [2 ^ 64], every such size
    is not negative and within one of
    [floor(total_size * count / object_count)], never above it when
    [total_size * object_count] is at most [2 ^ 51], and the sizes
    attributed to the bucket's classes add up to at most its total size.
    A bucket with a single class and less than [2 ^ 53] bytes is
    attributed its whole size.  With the histogram STANDARD: 3,
    GLACIER: 1 over 4 objects and 4000 bytes, the sizes are 3000 and
    1000. *)
Theorem proportional_split_near_floor :
  (forall (entry : bucket_summary) (o s : dict Z),
      let hist := Storage_Classes entry in
      let n := Object_Count entry in
      let S := Total_Size_Bytes entry in
      hist <> [] -> 0 < n -> NoDup (keys hist) ->
      collect_entry entry [] [] = Ok (o, s) ->
      o = hist
      /\ Forall2 (fun item size =>
                    fst size = fst item
                    /\ proportional_size S (snd item) n = Ok (snd size))
                 hist s)
  /\ (forall (entry : bucket_summary) (e : exn),
         let hist := Storage_Classes entry in
         let n := Object_Count entry in
         let S := Total_Size_Bytes entry in
         hist <> [] -> 0 < n ->
         collect_entry entry [] [] = Raise e ->
         Exists (fun item => proportional_size S (snd item) n = Raise e)
                hist)
  /\ (forall entry : bucket_summary,
         let hist := Storage_Classes entry in
         let n := Object_Count entry in
         let S := Total_Size_Bytes entry in
         hist <> [] ->
         NoDup (keys hist) ->
         Forall (fun v => 0 < v) (values hist) ->
         sum (values hist) = n ->
         0 <= S < 2 ^ 52 -> n < 2 ^ 64 ->
         exists sizes : dict Z,
           collect_entry entry [] [] = Ok (hist, sizes)
           /\ Forall2 (fun item size =>
                         fst size = fst item
                         /\ proportional_size S (snd item) n = Ok (snd size)
                         /\ 0 <= snd size
                         /\ S * snd item / n - 1 <= snd size
                            <= S * snd item / n + 1
                         /\ (S * n <= 2 ^ 51 ->
                             snd size <= S * snd item / n))
                      hist sizes
           /\ sum (values sizes) <= S)
  /\ (forall (entry : bucket_summary) (sc : string),
         Storage_Classes entry = [(sc, Object_Count entry)] ->
         0 < Object_Count entry < 2 ^ 64 ->
         0 <= Total_Size_Bytes entry < 2 ^ 53 ->
         collect_entry entry [] []
         = Ok ([(sc, Object_Count entry)], [(sc, Total_Size_Bytes entry)]))
  /\ collect_entry Samples.logs_entry [] []
     = Ok ([("STANDARD", 3); ("GLACIER", 1)],
           [("STANDARD", 3000); ("GLACIER", 1000)]).
Proof.
  assert (Htaken : forall entry : bucket_summary,
             Storage_Classes entry <> [] -> 0 < Object_Count entry ->
             collect_entry entry [] []
             = distribute (Storage_Classes entry) (Total_Size_Bytes entry)
                 (Object_Count entry) [] []).
  { intros entry Hne Hn. unfold collect_entry.
    replace (truthy_dict (Storage_Classes entry)) with true
      by (now destruct (Storage_Classes entry)).
    now replace (Object_Count entry >? 0) with true
      by (symmetry; apply Z.gtb_lt; lia). }
  split; [|split; [|split; [|split; [|vm_compute; reflexivity]]]].
  - intros entry o s hist n S Hne Hn Hnd Hc.
    rewrite Htaken in Hc by assumption.
    destruct (distribute_fresh_returned S n hist [] [] o s Hnd)
      as (sizes & -> & -> & Hf2); [intros k _; split; intros [] | exact Hc |].
    split; [reflexivity | exact Hf2].
  - intros entry e hist n S Hne Hn Hc.
    rewrite Htaken in Hc by assumption.
    now apply distribute_raises in Hc.
  - intros entry hist n S Hne Hnd Hpos Hsum HS Hn.
    assert (Hbounds : Forall (fun item => 0 < snd item <= n) hist).
    { apply Forall_forall. intros [k c] Hin. cbn [snd].
      assert (Hc : In c (values hist)) by (apply (in_map snd _ _ Hin)).
      split.
      - now apply (proj1 (Forall_forall _ _) Hpos).
      - rewrite <- Hsum. now apply In_le_sum. }
    assert (Hn0 : 0 < n).
    { destruct hist as [|[k c] rest]; [contradiction|].
      inversion Hbounds as [|? ? Hc _]; subst. cbn [snd] in Hc. lia. }
    assert (Hnear : Forall (fun item =>
                      exists z,
                        proportional_size S (snd item) n = Ok z
                        /\ 0 <= z
                        /\ z * n * ((2 ^ 53 - 1) * (2 ^ 53 - 1))
                           <= 2 ^ 53 * 2 ^ 53 * (S * snd item)
                        /\ S * snd item / n - 1 <= z
                           <= S * snd item / n + 1
                        /\ (S * n <= 2 ^ 51 -> z <= S * snd item / n))
                    hist).
    { apply Forall_forall. intros item Hin.
      pose proof (proj1 (Forall_forall _ _) Hbounds item Hin) as Hc.
      cbv beta in Hc.
      destruct (proportional_size_scaled S (snd item) n)
        as (z & Hz & Hz0 & Hup & Hlo); try lia.
      exists z. split; [exact Hz|]. split; [exact Hz0|].
      split; [exact Hup|].
      split; [apply (split_within_one S (snd item) n z); assumption|].
      intros HSn.
      assert (HK : S * snd item <= 2 ^ 51).
      { assert (S * snd item <= S * n)
          by (apply Z.mul_le_mono_nonneg_l; lia).
        lia. }
      destruct (proportional_size_near S (snd item) n) as (z' & Hz' & Hb);
        try lia.
      rewrite Hz in Hz'. inversion Hz'; subst z'. lia. }
    destruct (distribute_fresh S n hist [] [] Hnd) as (sizes & Hd & Hf2).
    { intros k _. split; intros []. }
    { eapply Forall_impl; [|exact Hnear]. intros item (z & Hz & _). eauto. }
    exists sizes. cbn [app] in Hd.
    split; [rewrite Htaken by assumption; exact Hd|].
    assert (Hall : Forall2 (fun item size =>
                     fst size = fst item
                     /\ proportional_size S (snd item) n = Ok (snd size)
                     /\ 0 <= snd size
                     /\ snd size * n * ((2 ^ 53 - 1) * (2 ^ 53 - 1))
                        <= 2 ^ 53 * 2 ^ 53 * (S * snd item)
                     /\ S * snd item / n - 1 <= snd size
                        <= S * snd item / n + 1
                     /\ (S * n <= 2 ^ 51 -> snd size <= S * snd item / n))
                  hist sizes).
    { clear Hd Hbounds Hnd Hpos Hsum Hne.
      induction Hf2 as [|item size items sizes [Hk Hz] _ IH]; [constructor|].
      inversion Hnear as [|? ? (z & Hz' & Hb) Hnear']; subst.
      constructor; [|now apply IH].
      rewrite Hz in Hz'. inversion Hz'; subst. auto. }
    split.
    { eapply Forall2_impl; [|exact Hall].
      cbv beta. intros item size (H1 & H2 & H3 & _ & H5 & H6). auto. }
    assert (Hscaled : sum (values sizes) * n * ((2 ^ 53 - 1) * (2 ^ 53 - 1))
                      <= 2 ^ 53 * 2 ^ 53 * (S * sum (values hist))).
    { apply splits_sum_scaled.
      eapply Forall2_impl; [|exact Hall].
      cbv beta. intros item size (_ & _ & _ & H4 & _). exact H4. }
    rewrite Hsum in Hscaled.
    assert (Hcancel : sum (values sizes) * ((2 ^ 53 - 1) * (2 ^ 53 - 1))
                      <= 2 ^ 53 * 2 ^ 53 * S).
    { apply (Z.mul_le_mono_pos_r _ _ n Hn0).
      replace (sum (values sizes) * ((2 ^ 53 - 1) * (2 ^ 53 - 1)) * n)
        with (sum (values sizes) * n * ((2 ^ 53 - 1) * (2 ^ 53 - 1)))
        by ring.
      replace (2 ^ 53 * 2 ^ 53 * S * n) with (2 ^ 53 * 2 ^ 53 * (S * n))
        by ring.
      exact Hscaled. }
    lia.
  - intros entry sc Hhist Hn HS. unfold collect_entry.
    rewrite Hhist. cbn [truthy_dict andb].
    replace (Object_Count entry >? 0) with true
      by (symmetry; apply Z.gtb_lt; lia).
    cbn [distribute].
    rewrite proportional_size_whole by assumption.
    reflexivity.
Qed.

Lemma proportional_split_near_floor_witness :
  exists sizes : dict Z,
    collect_entry Samples.mixed [] []
    = Ok ([("STANDARD", 7); ("GLACIER", 3)], sizes)
    /\ sum (values sizes) <= 90.
Proof.
  destruct (proj1 (proj2 (proj2 proportional_split_near_floor))
              Samples.mixed)
    as (sizes & Hc & _ & Hs).
  - discriminate.
  - repeat constructor; simpl; intuition discriminate.
  - repeat constructor.
  - reflexivity.
  - vm_compute. split; [discriminate | reflexivity].
  - vm_compute. reflexivity.
  - exists sizes. split; [exact Hc | exact Hs].
Defined.

(** C1, as stated, fails.  Ten objects of 90 bytes in all, seven in one
    class: the class is given 62 bytes, not [floor(90 * 7 / 10) = 63],
    and although both shares are whole numbers the two sizes add up to
    89, not 90. *)
Lemma proportional_split_not_floor :
  collect_entry Samples.mixed [] []
  = Ok ([("STANDARD", 7); ("GLACIER", 3)],
        [("STANDARD", 62); ("GLACIER", 27)])
  /\ proportional_size 90 7 10 = Ok 62
  /\ 62 <> 90 * 7 / 10
  /\ (90 * 7) mod 10 = 0 /\ (90 * 3) mod 10 = 0
  /\ 62 + 27 <> 90.
Proof.
  split; [vm_compute; reflexivity|].
  split; [vm_compute; reflexivity|].
  repeat split; vm_compute; discriminate.
Qed.

(** Beyond [2 ^ 53] the size itself is rounded when it is converted, and
    a class can be given more than the bucket holds. *)
Lemma proportional_split_above_total :
  collect_entry Samples.archive [] []
  = Ok ([("DEEP_ARCHIVE", 1)], [("DEEP_ARCHIVE", 2 ^ 53 + 4)]).
Proof. vm_compute. reflexivity. Qed.

(** At [2 ^ 53 - 3] bytes the splits can add up to more than the
    bucket holds: ten classes of one object each are given
    900719925474099 bytes each. *)
Lemma proportional_split_sum_above_total :
  exists sizes : dict Z,
    collect_entry Samples.spread [] []
    = Ok (Storage_Classes Samples.spread, sizes)
    /\ sum (values sizes) = 2 ^ 53 - 2
    /\ Total_Size_Bytes Samples.spread < sum (values sizes).
Proof.
  eexists. split; [vm_compute; reflexivity|].
  split; vm_compute; reflexivity.
Qed.

(** Below [2 ^ 52] a split can be one above the whole share. *)
Lemma proportional_split_above_floor :
  proportional_size 2071453229499926 63 98 = Ok 1331648504678524
  /\ 2071453229499926 * 63 / 98 = 1331648504678523.
Proof. split; vm_compute; reflexivity. Qed.

(* ================================================================= *)
(** ** Further properties of the scanner and the reporter *)

Import ScannerMore FormatMore Progress ProgressFacts ReportMore.
Import ClassesFacts.























